(** * The range-aware model asset server of [backend/server.js]

    A shallow embedding of the [GET /models/:file] route handler
    (server.js, lines 80-160) and the properties of its responses.

    Conventions of the embedding.
    - JavaScript strings are [string]; header values reach the handler
      as Latin-1 text, one character per byte.
    - JavaScript numbers are integers of [Z], and [NaN] is [None].  The
      embedding is exact for every integer of magnitude below 2^53, which
      covers every file size and every offset into a file; see
      [MAX_SAFE_INTEGER] for what lies above.
    - [path.join] and the directory of the installation are parameters
      of the handler; [Path.join] describes Node's function on POSIX
      paths and is what the examples use.
    - The file system is a finite map from paths to regular files; it does
      not change while one request is handled, and reading a file that
      exists does not fail (the ['error'] callbacks of the streams, which
      answer 500, are therefore not reached).
    - The response object [res] is threaded through the handler as a
      value: status code, header table, body.
    - Only what the handler itself writes to [res] is described; the
      [compression()] and [cors()] middleware registered in front of the
      route are outside the embedding. *)

From Stdlib Require Import ZArith String Ascii List Lia Bool.
From Stdlib Require Import Decimal DecimalString DecimalPos DecimalN DecimalZ.
From stdpp Require Import base option list gmap strings.

Local Open Scope string_scope.
Local Open Scope Z_scope.

(** ** JavaScript string primitives used by the handler *)

Module JS.

(** [s.startsWith(p)] *)
Fixpoint startsWith (s p : string) {struct p} : bool :=
  match p, s with
  | EmptyString, _ => true
  | String _ _, EmptyString => false
  | String a p', String b s' => if Ascii.eqb a b then startsWith s' p' else false
  end.

(** [s.includes(sub)]: [sub] occurs somewhere in [s].  A regular
    expression without metacharacters, as in [/-optimized/.test(s)],
    is the same search. *)
Fixpoint includes (s sub : string) : bool :=
  startsWith s sub ||
  match s with
  | EmptyString => false
  | String _ s' => includes s' sub
  end.

(** [s.slice(n)]: drop the first [n] characters. *)
Fixpoint drop_chars (n : nat) (s : string) : string :=
  match n, s with
  | O, _ => s
  | S _, EmptyString => EmptyString
  | S n', String _ s' => drop_chars n' s'
  end.

(** [s.replace(/pat/, repl)] for a literal pattern without the [g] flag:
    the first occurrence of [pat] is replaced, the rest is kept. *)
Fixpoint replace (pat repl s : string) : string :=
  if startsWith s pat then repl ++ drop_chars (String.length pat) s
  else match s with
       | EmptyString => EmptyString
       | String c s' => String c (replace pat repl s')
       end.

(** [s.split(sep)] for a one-character separator; the result always has
    at least one element ([''.split('-')] is [['']]). *)
Fixpoint split (sep : ascii) (s : string) : list string :=
  match s with
  | EmptyString => [EmptyString]
  | String c s' =>
      if Ascii.eqb c sep then EmptyString :: split sep s'
      else match split sep s' with
           | h :: t => String c h :: t
           | [] => [String c EmptyString]
           end
  end.

(** Truthiness of a string: only [''] is falsy. *)
Definition truthy (s : string) : bool :=
  match s with EmptyString => false | String _ _ => true end.

(** Truthiness of a possibly [undefined] string. *)
Definition truthy_opt (o : option string) : bool :=
  match o with Some s => truthy s | None => false end.

(** [StrWhiteSpaceChar] restricted to Latin-1: TAB, LF, VT, FF, CR, SP
    and NBSP. *)
Definition isWhiteSpace (c : ascii) : bool :=
  let n := N_of_ascii c in
  ((9 <=? n) && (n <=? 13) || (n =? 32) || (n =? 160))%N.

Definition isDigit (c : ascii) : bool :=
  let n := N_of_ascii c in ((48 <=? n) && (n <=? 57))%N.

Definition digitValue (c : ascii) : Z := Z.of_N (N_of_ascii c) - 48.

Fixpoint skipWhiteSpace (s : string) : string :=
  match s with
  | String c s' => if isWhiteSpace c then skipWhiteSpace s' else s
  | EmptyString => s
  end.

(** The value of the longest prefix of decimal digits, read left to
    right on top of [acc]. *)
Fixpoint parseDigits (acc : Z) (s : string) : Z :=
  match s with
  | String c s' =>
      if isDigit c then parseDigits (10 * acc + digitValue c) s' else acc
  | EmptyString => acc
  end.

(** The digits of [parseInt]: the text has to start with one. *)
Definition parseUnsigned (s : string) : option Z :=
  match s with
  | String c _ => if isDigit c then Some (parseDigits 0 s) else None
  | EmptyString => None
  end.

(** What [parseInt] does once the white space is gone: one sign is
    accepted. *)
Definition parseSigned (s : string) : option Z :=
  match s with
  | String "-" r => Z.opp <$> parseUnsigned r
  | String "+" r => parseUnsigned r
  | _ => parseUnsigned s
  end.

(** [parseInt(s, 10)]: leading white space is skipped, one sign is
    accepted, then the longest run of digits is read; without a digit
    the result is [NaN]. *)
Definition parseInt (s : string) : option Z :=
  parseSigned (skipWhiteSpace s).

(** [parseInt(x, 10)] where [x] may be [undefined]:
    [parseInt(undefined)] is [NaN]. *)
Definition parseInt_opt (o : option string) : option Z :=
  match o with Some s => parseInt s | None => None end.

(** [String(n)] for an integer: decimal digits, a leading [-] below
    zero. *)
Definition Number_toString (n : Z) : string :=
  NilZero.string_of_int (Z.to_int n).

End JS.

(** [Number.MAX_SAFE_INTEGER].  Up to this value numerals are read and
    printed as the integers they denote, and [fs.createReadStream]
    accepts the value as an offset; above it [parseInt] rounds to the
    nearest double, [createReadStream] throws a [RangeError] that the
    [catch] of line 156 answers with 500, and from 10^21 on a number is
    printed with an exponent.  Statements that let a bound of the
    [Range] header reach [createReadStream] or a comparison therefore
    keep the bounds at or below this value. *)
Definition MAX_SAFE_INTEGER : Z := 2 ^ 53 - 1.

(** ** Data model *)

(** A regular file: its bytes and its modification time. *)
Record File := mkFile {
  content : list Byte.byte;
  mtimeMs : Z
}.

(** What [fs.statSync] returns, as far as the handler reads it. *)
Record Stats := mkStats {
  size : Z
}.

(** The parts of the request the handler reads: [req.params.file],
    [req.headers['accept-encoding']] and [req.headers.range]; an absent
    header is [undefined], here [None]. *)
Record Request := mkRequest {
  params_file : string;
  headers_accept_encoding : option string;
  headers_range : option string
}.

(** The response under construction. *)
Record Response := mkResponse {
  statusCode : Z;
  headers : gmap string string;
  body : list Byte.byte
}.

(** A fresh response: status 200, no header, nothing written. *)
Definition newResponse : Response := mkResponse 200 ∅ [].

Definition status (code : Z) (res : Response) : Response :=
  mkResponse code (headers res) (body res).

Definition setHeader (name value : string) (res : Response) : Response :=
  mkResponse (statusCode res) (<[name := value]> (headers res)) (body res).

(** [res.send(text)]: the text is the body.  Express also sets
    [Content-Length] and [ETag], and [Content-Type] ([text/html] with a
    charset when none is set yet); these three headers are not
    represented, and no statement below is about them on an answer that
    [send] writes. *)
Definition send (text : string) (res : Response) : Response :=
  mkResponse (statusCode res) (headers res) (list_byte_of_string text).

(** [res.end()]: the response is finished without a body. *)
Definition res_end (res : Response) : Response :=
  mkResponse (statusCode res) (headers res) [].

(** [res.sendStatus(code)]: the status and its reason phrase as body. *)
Definition sendStatus (code : Z) (reason : string) (res : Response) : Response :=
  send reason (status code res).

(** [stream.pipe(res)]: the bytes of the stream are the body. *)
Definition pipe (bytes : list Byte.byte) (res : Response) : Response :=
  mkResponse (statusCode res) (headers res) bytes.

(** ** File system *)

Definition existsSync (fs : gmap string File) (p : string) : bool :=
  bool_decide (is_Some (fs !! p)).

(** [fs.statSync(p)]; [None] stands for the exception on a missing
    path. *)
Definition statSync (fs : gmap string File) (p : string) : option Stats :=
  (fun f => mkStats (Z.of_nat (length (content f)))) <$> fs !! p.

(** The bytes at offsets [start] to [end] inclusive, as many of them as
    the file has. *)
Definition byteRange (start end_ : Z) (bytes : list Byte.byte) : list Byte.byte :=
  take (Z.to_nat (end_ - start + 1)) (drop (Z.to_nat start) bytes).

(** [fs.createReadStream(p, { start, end })] and
    [fs.createReadStream(p)], as the bytes the stream delivers; [None]
    is the stream's ['error'] event. *)
Definition createReadStream (fs : gmap string File) (p : string)
    (opts : option (Z * Z)) : option (list Byte.byte) :=
  match fs !! p with
  | Some f =>
      match opts with
      | Some (start, end_) => Some (byteRange start end_ (content f))
      | None => Some (content f)
      end
  | None => None
  end.

(** ['open'] pipes the stream into the response, ['error'] answers 500. *)
Definition streamTo (stream : option (list Byte.byte)) (res : Response) : Response :=
  match stream with
  | Some bytes => pipe bytes res
  | None => sendStatus 500 "Internal Server Error" res
  end.

(** ** The route handler *)

Section AssetServer.

(** [modelsDir] is [path.join(__dirname, 'models')] and depends on
    where the server is installed; [path.join] is Node's. *)
Variable modelsDir : string.
Variable path_join : string -> string -> string.

Definition originalPath (fileName : string) : string :=
  path_join modelsDir fileName.

(** Lines 93-104: the file to read and the [Content-Encoding] to
    announce. *)
Definition chooseVariant (fs : gmap string File) (acceptEnc originalPath : string)
    : string * string :=
  if JS.includes acceptEnc "br" && existsSync fs (originalPath ++ ".br") then
    (originalPath ++ ".br", "br")
  else if JS.includes acceptEnc "gzip" && existsSync fs (originalPath ++ ".gz") then
    (originalPath ++ ".gz", "gzip")
  else
    (originalPath, "").

(** Lines 126-128: the two bounds of [bytes=start-end]. *)
Definition rangeParts (range : string) : list string :=
  JS.split "-" (JS.replace "bytes=" "" range).

Definition rangeStart (range : string) : option Z :=
  JS.parseInt_opt (rangeParts range !! 0%nat).

Definition rangeEnd (range : string) (total : Z) : option Z :=
  let part := rangeParts range !! 1%nat in
  if JS.truthy_opt part then JS.parseInt_opt part else Some (total - 1).

(** Lines 111-122: the headers every answer for an existing asset
    carries. *)
Definition assembleHeaders (fileName contentEncoding : string) (res : Response)
    : Response :=
  let res := setHeader "Content-Type" "model/gltf-binary" res in
  let res :=
    if JS.truthy contentEncoding
    then setHeader "Content-Encoding" contentEncoding res
    else res in
  if JS.includes fileName "-optimized"
  then setHeader "Cache-Control" "public, max-age=31536000, immutable" res
  else setHeader "Cache-Control" "public, max-age=86400" res.

(** Lines 130-131: the answer to a range that is not accepted. *)
Definition rangeNotSatisfiable (total : Z) (res : Response) : Response :=
  res_end (setHeader "Content-Range"
             ("bytes */" ++ JS.Number_toString total) (status 416 res)).

(** Lines 107-155: the body of the [try] once [statSync] has
    returned. *)
Definition serve (fs : gmap string File) (req : Request)
    (chosenPath contentEncoding : string) (stat : Stats) (res : Response)
    : Response :=
  let fileName := params_file req in
  let total := size stat in
  let res := assembleHeaders fileName contentEncoding res in
  if JS.truthy_opt (headers_range req) then
    let range := default "" (headers_range req) in
    let start := rangeStart range in
    let end_ := rangeEnd range total in
    match start, end_ with
    | Some start, Some end_ =>
        if start >? end_ then rangeNotSatisfiable total res
        else
          let chunkSize := (end_ - start) + 1 in
          let res := status 206 res in
          let res := setHeader "Content-Range"
                       ("bytes " ++ JS.Number_toString start ++ "-"
                        ++ JS.Number_toString end_ ++ "/"
                        ++ JS.Number_toString total) res in
          let res := setHeader "Accept-Ranges" "bytes" res in
          let res := setHeader "Content-Length" (JS.Number_toString chunkSize) res in
          streamTo (createReadStream fs chosenPath (Some (start, end_))) res
    | _, _ => rangeNotSatisfiable total res
    end
  else
    let res := setHeader "Accept-Ranges" "bytes" res in
    let res := setHeader "Content-Length" (JS.Number_toString total) res in
    streamTo (createReadStream fs chosenPath None) res.

(** [app.get('/models/:file', (req, res) => ...)] *)
Definition handler (fs : gmap string File) (req : Request) : Response :=
  let res := newResponse in
  let fileName := params_file req in
  let originalPath := originalPath fileName in
  if negb (existsSync fs originalPath) then
    send "Not found" (status 404 res)
  else
    let res := setHeader "Access-Control-Allow-Origin" "*" res in
    let res := setHeader "Vary" "Accept-Encoding" res in
    let acceptEnc := default "" (headers_accept_encoding req) in
    let '(chosenPath, contentEncoding) := chooseVariant fs acceptEnc originalPath in
    match statSync fs chosenPath with
    | Some stat => serve fs req chosenPath contentEncoding stat res
    | None => send "Server error" (status 500 res)
    end.

(** The path lines 93-104 choose for a request, and the encoding they
    announce. *)
Definition selectedPath (fs : gmap string File) (req : Request) : string :=
  (chooseVariant fs (default "" (headers_accept_encoding req))
     (originalPath (params_file req))).1.

Definition selectedEncoding (fs : gmap string File) (req : Request) : string :=
  (chooseVariant fs (default "" (headers_accept_encoding req))
     (originalPath (params_file req))).2.

End AssetServer.

(** What the handler has set when it enters the [try]. *)
Definition entered : Response :=
  setHeader "Vary" "Accept-Encoding"
    (setHeader "Access-Control-Allow-Origin" "*" newResponse).

(** The same request without its [Range] header. *)
Definition withoutRange (req : Request) : Request :=
  mkRequest (params_file req) (headers_accept_encoding req) None.

(** The same files with other modification times. *)
Definition retime (clock : string -> File -> Z) (fs : gmap string File)
    : gmap string File :=
  map_imap (fun p f => Some (mkFile (content f) (clock p f))) fs.

(** ** Node's [path.join] on POSIX paths *)

Module Path.

(** [parts.join(sep)] *)
Fixpoint joinWith (sep : string) (parts : list string) : string :=
  match parts with
  | [] => ""
  | [part] => part
  | part :: rest => part ++ sep ++ joinWith sep rest
  end.

Definition isAbsolute (path : string) : bool :=
  match path with
  | String "/" _ => true
  | _ => false
  end.

Fixpoint endsWithSlash (path : string) : bool :=
  match path with
  | EmptyString => false
  | String c EmptyString => Ascii.eqb c "/"
  | String _ rest => endsWithSlash rest
  end.

(** [normalizeString]: the segments between slashes from left to right.
    Empty segments and [.] are dropped, [..] takes away the segment
    before it, or stays when there is none and [allowAboveRoot] holds;
    [res] has the kept segments, the last one first. *)
Fixpoint normalizeSegments (allowAboveRoot : bool) (res segments : list string)
    : list string :=
  match segments with
  | [] => rev res
  | segment :: rest =>
      if String.eqb segment "" || String.eqb segment "." then
        normalizeSegments allowAboveRoot res rest
      else if String.eqb segment ".." then
        match res with
        | top :: below =>
            if String.eqb top ".." then
              normalizeSegments allowAboveRoot
                (if allowAboveRoot then ".." :: res else res) rest
            else normalizeSegments allowAboveRoot below rest
        | [] =>
            normalizeSegments allowAboveRoot
              (if allowAboveRoot then [".."] else []) rest
        end
      else normalizeSegments allowAboveRoot (segment :: res) rest
  end.

(** [path.normalize(path)] *)
Definition normalize (path : string) : string :=
  if negb (JS.truthy path) then "."
  else
    let absolute := isAbsolute path in
    let trailingSeparator := endsWithSlash path in
    let normalized :=
      joinWith "/" (normalizeSegments (negb absolute) [] (JS.split "/" path)) in
    if negb (JS.truthy normalized) then
      if absolute then "/" else if trailingSeparator then "./" else "."
    else
      let normalized :=
        if trailingSeparator then normalized ++ "/" else normalized in
      if absolute then "/" ++ normalized else normalized.

(** [path.join(...args)]: the arguments that are not empty, with slashes
    between them, normalized. *)
Definition join (args : list string) : string :=
  let joined := joinWith "/" (List.filter JS.truthy args) in
  if negb (JS.truthy joined) then "." else normalize joined.

End Path.

(** [path.join(dir, name)] *)
Definition nodeJoin (dir name : string) : string := Path.join [dir; name].

(** A concrete installation used for the examples: the models live in
    [/srv/backend/models], and paths are joined as Node does on a POSIX
    system. *)
Definition exampleDir : string := "/srv/backend/models".
Definition exampleJoin : string -> string -> string := nodeJoin.
Definition exampleHandler := handler exampleDir exampleJoin.

Definition bytesOf (s : string) : list Byte.byte := list_byte_of_string s.

(** [n] times ten bytes: a file of [10 * n] bytes whose content shows
    the offset modulo ten. *)
Definition tens (n : N) : list Byte.byte :=
  N.iter n (app (bytesOf "0123456789")) [].

(** A directory with one asset and both of its siblings, the siblings
    older than the asset. *)
Definition lampDir : gmap string File :=
  {[ "/srv/backend/models/lamp.glb" := mkFile (bytesOf "0123456789") 200;
     "/srv/backend/models/lamp.glb.br" := mkFile (bytesOf "BROTLI") 100;
     "/srv/backend/models/lamp.glb.gz" := mkFile (bytesOf "GZIPPED!") 100 ]}.

(** A directory with a sibling but without its asset, and with a name
    that differs from the requested one in case and in length only. *)
Definition orphanDir : gmap string File :=
  {[ "/srv/backend/models/lamp.glb.gz" := mkFile (bytesOf "GZIPPED!") 100;
     "/srv/backend/models/LAMP.GLB" := mkFile (bytesOf "0123456789") 100;
     "/srv/backend/models/lamp.glb2" := mkFile (bytesOf "0123456789") 100 ]}.

(** A directory with one asset of 1000 bytes. *)
Definition kiloDir : gmap string File :=
  {[ "/srv/backend/models/kilo.glb" := mkFile (tens 100) 200 ]}.

(** A directory with one asset of 500000 bytes. *)
Definition chairDir : gmap string File :=
  {[ "/srv/backend/models/chair-optimized.glb" := mkFile (tens 50000) 200 ]}.

(** The freshness test of the offline precompress script (lines 24-27
    and 42-45 of that script): a sibling is written again unless it
    exists with a modification time not older than the source's.  The
    route handler has no such test. *)
Definition precompressNeeded (fs : gmap string File) (src sibling : string) : bool :=
  match fs !! src, fs !! sibling with
  | Some source, Some compressed => negb (mtimeMs source <=? mtimeMs compressed)
  | _, _ => true
  end.

(** The staleness rule as a property of the handler: a sibling older
    than the canonical file is not the variant that is announced. *)
Definition staleSiblingExcluded
    (modelsDir : string) (path_join : string -> string -> string) : Prop :=
  forall (fs : gmap string File) (req : Request) (canonical sibling : File)
         (suffix encoding : string),
    (suffix, encoding) = (".br", "br") \/ (suffix, encoding) = (".gz", "gzip") ->
    let orig := originalPath modelsDir path_join (params_file req) in
    fs !! orig = Some canonical ->
    fs !! (orig ++ suffix) = Some sibling ->
    mtimeMs sibling < mtimeMs canonical ->
    headers (handler modelsDir path_join fs req) !! "Content-Encoding"
    <> Some encoding.

(** ** The rest of [backend/server.js] *)

(** String functions of the listing endpoints.  File names are taken as
    ASCII text: [toLowerCase] is described on the letters A to Z. *)
Module Str.

Definition toLowerChar (c : ascii) : ascii :=
  let n := N_of_ascii c in
  if ((65 <=? n) && (n <=? 90))%N then ascii_of_N (n + 32) else c.

(** [s.toLowerCase()] *)
Fixpoint toLowerCase (s : string) : string :=
  match s with
  | EmptyString => EmptyString
  | String c s' => String (toLowerChar c) (toLowerCase s')
  end.

(** [s.endsWith(suffix)]: [suffix] is what is left of [s] from some
    position on. *)
Fixpoint endsWith (s suffix : string) : bool :=
  String.eqb s suffix ||
  match s with
  | EmptyString => false
  | String _ s' => endsWith s' suffix
  end.

(** [a || d] for a string that may be [undefined]. *)
Definition orElse (a : option string) (d : string) : string :=
  match a with
  | Some s => if JS.truthy s then s else d
  | None => d
  end.

(** [list.indexOf(x) !== -1] *)
Definition isListed (x : string) (list : list string) : bool :=
  existsb (String.eqb x) list.

(** [array.sort(compare)]: the sort is stable, so its result is the one
    of inserting each element in front of the first later element it has
    to precede. *)
Fixpoint insertBy {A} (compare : A -> A -> Z) (x : A) (sorted : list A) : list A :=
  match sorted with
  | [] => [x]
  | y :: rest =>
      if compare x y <=? 0 then x :: sorted else y :: insertBy compare x rest
  end.

Definition sort {A} (compare : A -> A -> Z) (l : list A) : list A :=
  foldr (insertBy compare) [] l.

End Str.

(** *** The [origin] callback of the CORS options (lines 17-39) *)

Inductive CorsDecision :=
| CorsAllow
| CorsError (message : string).

Definition allowedOrigins : list string :=
  [ "http://localhost:3000"; "https://localhost:3000";
    "http://localhost:5000"; "https://localhost:5000";
    "http://127.0.0.1:3000"; "https://127.0.0.1:3000";
    "http://127.0.0.1:5000"; "https://127.0.0.1:5000" ].

Definition corsOrigin (origin : option string) : CorsDecision :=
  if negb (JS.truthy_opt origin) then CorsAllow
  else
    let origin := default "" origin in
    if JS.includes origin ".devtunnels.ms"
       || JS.includes origin ".tunnels.ngrok.io"
       || JS.includes origin ".loca.lt"
    then CorsAllow
    else if Str.isListed origin allowedOrigins then CorsAllow
    else CorsError "Not allowed by CORS".

(** *** The middleware that sets the CORS headers (lines 56-62) *)

Definition corsHeaders (origin : option string) (res : Response) : Response :=
  let allowedOrigin := Str.orElse origin "*" in
  let res := setHeader "Access-Control-Allow-Origin" allowedOrigin res in
  let res := setHeader "Access-Control-Allow-Methods" "GET, POST, PUT, DELETE" res in
  setHeader "Access-Control-Allow-Headers" "Content-Type" res.

(** *** The listing endpoints (lines 165-215) *)

(** The outcome of an endpoint that answers with [res.json]: the value
    sent with status 200, or a status with an [error] text. *)
Inductive ApiResult (A : Type) :=
| ApiJson (payload : A)
| ApiError (code : Z) (error : string).
Arguments ApiJson {A} payload.
Arguments ApiError {A} code error.

Record ModelEntry := mkEntry {
  entry_name : string;
  entry_path : string;
  entry_id : string;
  entry_size : Z;
  entry_optimized : bool
}.

Record ModelInfo := mkInfo {
  info_name : string;
  info_path : string;
  info_id : string;
  info_size : Z;
  info_modified : Z
}.

(** The comparison of line 183: optimized entries first. *)
Definition compareOptimized (a b : ModelEntry) : Z :=
  if Bool.eqb (entry_optimized a) (entry_optimized b) then 0
  else if entry_optimized a then -1 else 1.

Definition isGlb (file : string) : bool :=
  Str.endsWith (Str.toLowerCase file) ".glb".

Definition isOptimized (file : string) : bool :=
  JS.includes (Str.toLowerCase file) "-optimized-draco"
  || JS.includes (Str.toLowerCase file) "-optimized".

Section Listing.

Variable modelsDir : string.
Variable path_join : string -> string -> string.

(** Lines 172-181: the entry of one file; [None] when [statSync]
    throws. *)
Definition entryOf (fs : gmap string File) (file : string) : option ModelEntry :=
  stat ← statSync fs (path_join modelsDir file);
  Some (mkEntry file ("/models/" ++ file) (JS.replace ".glb" "" file)
          (size stat) (isOptimized file)).

(** [GET /api/models]; [dirents] is what [fs.readdirSync(modelsDir)]
    returns, [None] when it throws. *)
Definition listModels (dirents : option (list string)) (fs : gmap string File)
    : ApiResult (list ModelEntry) :=
  match dirents with
  | Some files =>
      let glbFilesRaw := List.filter isGlb files in
      match mapM (entryOf fs) glbFilesRaw with
      | Some entries => ApiJson (Str.sort compareOptimized entries)
      | None => ApiError 500 "Failed to read models directory"
      end
  | None => ApiError 500 "Failed to read models directory"
  end.

(** [GET /api/models/:id] *)
Definition modelInfo (fs : gmap string File) (id : string) : ApiResult ModelInfo :=
  let fileName := id ++ ".glb" in
  let filePath := path_join modelsDir fileName in
  if negb (existsSync fs filePath) then ApiError 404 "Model not found"
  else
    match fs !! filePath with
    | Some stats =>
        ApiJson (mkInfo fileName ("/models/" ++ fileName) id
                   (Z.of_nat (length (content stats))) (mtimeMs stats))
    | None => ApiError 500 "Failed to get model info"
    end.

(** The route handler of lines 80-160 on the response object it is
    handed, which earlier middleware may have written to. *)
Definition handlerFrom (res : Response) (fs : gmap string File) (req : Request)
    : Response :=
  let fileName := params_file req in
  let originalPath := originalPath modelsDir path_join fileName in
  if negb (existsSync fs originalPath) then
    send "Not found" (status 404 res)
  else
    let res := setHeader "Access-Control-Allow-Origin" "*" res in
    let res := setHeader "Vary" "Accept-Encoding" res in
    let acceptEnc := default "" (headers_accept_encoding req) in
    let '(chosenPath, contentEncoding) := chooseVariant fs acceptEnc originalPath in
    match statSync fs chosenPath with
    | Some stat => serve fs req chosenPath contentEncoding stat res
    | None => send "Server error" (status 500 res)
    end.

(** What the application does with [GET /models/:file] once [cors()]
    (lines 16-43) has asked the [origin] callback.  A refused origin is
    passed to the error handler of Express, and neither the middleware
    of lines 56-62 nor the route runs: [None].  Otherwise that
    middleware and then the route write to the response [res] as the
    middleware in front of them leave it. *)
Definition modelsRoute (origin : option string) (res : Response)
    (fs : gmap string File) (req : Request) : option Response :=
  match corsOrigin origin with
  | CorsAllow => Some (handlerFrom (corsHeaders origin res) fs req)
  | CorsError _ => None
  end.

End Listing.

(** *** The WebSocket relay (lines 239-256) *)

Inductive ReadyState := CONNECTING | OPEN | CLOSING | CLOSED.

Global Instance ReadyState_eq_dec : EqDecision ReadyState.
Proof. solve_decision. Defined.

(** A connected client: the state of its socket and what the server has
    sent to it, oldest message first. *)
Record Client := mkClient {
  readyState : ReadyState;
  sent : list string
}.

(** [client.send(message)] *)
Definition clientSend (message : string) (client : Client) : Client :=
  mkClient (readyState client) (sent client ++ [message]).

(** The ['message'] handler of the connection [ws]: [wss.clients] is
    the set of connections, here keyed by a number that stands for the
    identity of the socket object. *)
Definition onMessage (ws : nat) (message : string) (clients : gmap nat Client)
    : gmap nat Client :=
  map_imap (fun id client =>
              Some (if bool_decide (id <> ws)
                       && bool_decide (readyState client = OPEN)
                    then clientSend message client
                    else client)) clients.

(** The messages [(ws, message)] that arrive one after the other. *)
Definition relay (events : list (nat * string)) (clients : gmap nat Client)
    : gmap nat Client :=
  foldl (fun clients event => onMessage event.1 event.2 clients) clients events.

(** *** The precompress script *)

Section Precompress.

(** The two compressors of [zlib], and the time at which the write
    stream of an output path finishes. *)
Variable gzip brotli : list Byte.byte -> list Byte.byte.
Variable writtenAt : string -> Z.

(** The body of the [forEach] over the [.glb] files, for the file at
    path [src]: both tests are made before anything is written, and each
    output that is needed is written from the bytes of [src].  [None]
    when [statSync(src)] throws. *)
Definition precompressFile (fs : gmap string File) (src : string)
    : option (gmap string File) :=
  match fs !! src with
  | Some source =>
      let gzPath := src ++ ".gz" in
      let brPath := src ++ ".br" in
      let doGzip := precompressNeeded fs src gzPath in
      let doBr := precompressNeeded fs src brPath in
      let fs1 :=
        if doGzip
        then <[gzPath := mkFile (gzip (content source)) (writtenAt gzPath)]> fs
        else fs in
      Some (if doBr
            then <[brPath := mkFile (brotli (content source)) (writtenAt brPath)]> fs1
            else fs1)
  | None => None
  end.

End Precompress.

(** *** Concrete inputs for the rest of the server *)

(** A directory as [readdirSync] lists it, and its files. *)
Definition shopFiles : list string :=
  [ "lamp.glb"; "notes.txt"; "chair-optimized.glb"; "Table.GLB";
    "desk-optimized-draco.glb" ].

Definition shopDir : gmap string File :=
  {[ "/srv/backend/models/lamp.glb" := mkFile (bytesOf "0123456789") 200;
     "/srv/backend/models/notes.txt" := mkFile (bytesOf "notes") 200;
     "/srv/backend/models/chair-optimized.glb" := mkFile (bytesOf "chair") 200;
     "/srv/backend/models/Table.GLB" := mkFile (bytesOf "table!") 200;
     "/srv/backend/models/desk-optimized-draco.glb" := mkFile (bytesOf "desk") 200 ]}.

(** What [GET /api/models] answers on [shopDir], or nothing when it
    fails. *)
Definition shopEntries : list ModelEntry :=
  match listModels exampleDir exampleJoin (Some shopFiles) shopDir with
  | ApiJson entries => entries
  | ApiError _ _ => []
  end.

(** Three connections: two open ones and a closed one. *)
Definition roomClients : gmap nat Client :=
  {[ 1%nat := mkClient OPEN []; 2%nat := mkClient OPEN ["hello"];
     3%nat := mkClient CLOSED [] ]}.

(** Stand-ins for the compressors and the clock of the script. *)
Definition markGzip (bytes : list Byte.byte) : list Byte.byte :=
  (bytesOf "gz:" ++ bytes)%list.
Definition markBrotli (bytes : list Byte.byte) : list Byte.byte :=
  (bytesOf "br:" ++ bytes)%list.
Definition at300 (path : string) : Z := 300.

(** [lampDir] after the script has gone over [lamp.glb]. *)
Definition lampDirCompressed : gmap string File :=
  default ∅ (precompressFile markGzip markBrotli at300 lampDir
               "/srv/backend/models/lamp.glb").

(** Every character of [s] passes the test [P]. *)
Fixpoint allChars (P : ascii -> bool) (s : string) : bool :=
  match s with
  | EmptyString => true
  | String c s' => P c && allChars P s'
  end.

(** A name that is one segment of a path: not empty, not [.] or [..],
    without a slash. *)
Definition plainSegment (s : string) : bool :=
  JS.truthy s && negb (String.eqb s ".") && negb (String.eqb s "..")
  && allChars (fun c => negb (Ascii.eqb c "/")) s.

(** The rule of exact names as a property of the handler: a file of
    the models directory named [n] is the file at [modelsDir/n], and a
    request is answered 404 whenever no file of the directory has the
    requested name. *)
Definition missingByName
    (modelsDir : string) (path_join : string -> string -> string) : Prop :=
  forall (fs : gmap string File) (req : Request),
    fs !! (modelsDir ++ "/" ++ params_file req) = None ->
    statusCode (handler modelsDir path_join fs req) = 404.

(** ** Facts about the string primitives *)

Section StringFacts.

Lemma startsWith_app p s : JS.startsWith (p ++ s) p = true.
Proof.
  induction p as [|c p IH]; simpl; [done|].
  by rewrite Ascii.eqb_refl.
Qed.

Lemma drop_chars_app p s : JS.drop_chars (String.length p) (p ++ s) = s.
Proof. induction p as [|c p IH]; simpl; [done | exact IH]. Qed.

(** A pattern at the very start of the text is the occurrence that is
    replaced. *)
Lemma replace_at_start pat repl s :
  JS.replace pat repl (pat ++ s) = repl ++ s.
Proof.
  destruct pat as [|c pat].
  - by destruct s.
  - change (JS.replace (String c pat) repl (String c pat ++ s))
      with (if JS.startsWith (String c pat ++ s) (String c pat)
            then repl ++ JS.drop_chars (String.length (String c pat)) (String c pat ++ s)
            else String c (JS.replace (String c pat) repl (pat ++ s))).
    by rewrite startsWith_app, drop_chars_app.
Qed.

Lemma split_nonempty sep s : JS.split sep s <> [].
Proof.
  destruct s as [|c s]; simpl; [done|].
  destruct (Ascii.eqb c sep); [done|]. by destruct (JS.split sep s).
Qed.

(** Up to the first separator the text is the first part. *)
Lemma split_app_sep sep a b :
  allChars (fun c => negb (Ascii.eqb c sep)) a = true ->
  JS.split sep (a ++ String sep b) = a :: JS.split sep b.
Proof.
  induction a as [|c a IH]; simpl.
  - intros _. by rewrite Ascii.eqb_refl.
  - intros [Hc Ha]%andb_true_iff.
    apply negb_true_iff in Hc. rewrite Hc, (IH Ha). done.
Qed.

Lemma split_no_sep sep a :
  allChars (fun c => negb (Ascii.eqb c sep)) a = true ->
  JS.split sep a = [a].
Proof.
  induction a as [|c a IH]; simpl; [done|].
  intros [Hc Ha]%andb_true_iff.
  apply negb_true_iff in Hc. by rewrite Hc, (IH Ha).
Qed.

(** The first part of a split never contains the separator. *)
Lemma split_head_no_sep sep s h t :
  JS.split sep s = h :: t ->
  allChars (fun c => negb (Ascii.eqb c sep)) h = true.
Proof.
  revert h t. induction s as [|c s IH]; simpl; intros h t.
  - by intros [= <- <-].
  - destruct (Ascii.eqb c sep) eqn:Hc; [by intros [= <- <-]|].
    destruct (JS.split sep s) as [|h' t'] eqn:Hs.
    + intros [= <- <-]. simpl. by rewrite Hc.
    + intros [= <- <-]. simpl. rewrite Hc. simpl. by eapply IH.
Qed.

Lemma allChars_impl (P Q : ascii -> bool) s :
  (forall c, P c = true -> Q c = true) ->
  allChars P s = true -> allChars Q s = true.
Proof.
  intros HPQ. induction s as [|c s IH]; simpl; [done|].
  intros [Hc Hs]%andb_true_iff. by rewrite (HPQ _ Hc), (IH Hs).
Qed.

Lemma isDigit_not_dash c : JS.isDigit c = true -> negb (Ascii.eqb c "-") = true.
Proof.
  intros Hd. apply negb_true_iff, Ascii.eqb_neq. intros ->. done.
Qed.

Lemma isDigit_not_space c : JS.isDigit c = true -> JS.isWhiteSpace c = false.
Proof.
  unfold JS.isDigit, JS.isWhiteSpace. cbv zeta.
  generalize (N_of_ascii c). intros n.
  rewrite andb_true_iff, !N.leb_le. intros [? ?].
  rewrite orb_false_iff, orb_false_iff, andb_false_iff, !N.leb_gt, !N.eqb_neq.
  lia.
Qed.

(** A text that starts with a digit is read from its first
    character. *)
Lemma parseSigned_unsigned c s :
  c <> "-"%char -> c <> "+"%char ->
  JS.parseSigned (String c s) = JS.parseUnsigned (String c s).
Proof.
  intros Hm Hp. destruct c as [[] [] [] [] [] [] [] []]; done.
Qed.

Lemma parseInt_digit_first c s :
  JS.isDigit c = true ->
  JS.parseInt (String c s) = Some (JS.parseDigits 0 (String c s)).
Proof.
  intros Hd. unfold JS.parseInt.
  change (JS.skipWhiteSpace (String c s))
    with (if JS.isWhiteSpace c then JS.skipWhiteSpace s else String c s).
  rewrite (isDigit_not_space _ Hd).
  rewrite parseSigned_unsigned by (intros ->; done).
  unfold JS.parseUnsigned. by rewrite Hd.
Qed.

(** Appending a non-empty text gives another text. *)
Lemma string_app_neq s c t : s ++ String c t <> s.
Proof.
  induction s as [|a s IH]; simpl; [done|].
  intros [= Heq]. by apply IH.
Qed.

(** A text without a digit in front, sign and white space apart, is
    not a number; the empty text in particular. *)
Lemma parseInt_empty : JS.parseInt "" = None.
Proof. done. Qed.

End StringFacts.

(** ** Decimal numerals: printing, and reading them back *)

Section Numerals.

Lemma digits_of_uint d : allChars JS.isDigit (NilEmpty.string_of_uint d) = true.
Proof. induction d; simpl; done. Qed.

Lemma parseDigits_uint_acc d acc :
  JS.parseDigits (Z.pos acc) (NilEmpty.string_of_uint d)
  = Z.pos (Pos.of_uint_acc d acc).
Proof.
  revert acc. induction d as [|d IH|d IH|d IH|d IH|d IH|d IH|d IH|d IH|d IH|d IH];
    intros acc; [done|..]; cbn [NilEmpty.string_of_uint JS.parseDigits Pos.of_uint_acc];
    (rewrite <- IH; f_equal; unfold JS.digitValue; cbn; lia).
Qed.

Lemma parseDigits_uint d :
  JS.parseDigits 0 (NilEmpty.string_of_uint d) = Z.of_N (Pos.of_uint d).
Proof.
  induction d as [|d IH|d IH|d IH|d IH|d IH|d IH|d IH|d IH|d IH|d IH];
    [done|exact IH|..]; cbn [NilEmpty.string_of_uint JS.parseDigits Pos.of_uint];
    apply parseDigits_uint_acc.
Qed.

(** The numeral of a natural number: only digits, at least one. *)
Lemma toString_digits n :
  0 <= n ->
  exists c s, JS.Number_toString n = String c s
              /\ allChars JS.isDigit (String c s) = true.
Proof.
  intros Hn. unfold JS.Number_toString.
  destruct n as [|p|p]; [by exists "0"%char, EmptyString| |lia].
  cbn [Z.to_int NilZero.string_of_int NilZero.string_of_uint].
  pose proof (DecimalPos.Unsigned.to_uint_nonnil p) as Hnil.
  pose proof (digits_of_uint (Pos.to_uint p)) as Hd.
  destruct (Pos.to_uint p) eqn:Hp; [done|..];
    cbn [NilZero.string_of_uint NilEmpty.string_of_uint] in *; eauto.
Qed.

(** [parseInt(String(n), 10)] is [n]. *)
Lemma parseInt_toString n :
  0 <= n -> JS.parseInt (JS.Number_toString n) = Some n.
Proof.
  intros Hn.
  destruct (toString_digits n Hn) as (c & s & Hs & Hd).
  rewrite Hs. simpl in Hd. apply andb_true_iff in Hd as [Hc _].
  rewrite (parseInt_digit_first _ _ Hc), <- Hs. f_equal.
  unfold JS.Number_toString.
  destruct n as [|p|p]; [done| |lia].
  cbn [Z.to_int NilZero.string_of_int].
  pose proof (DecimalPos.Unsigned.to_uint_nonnil p) as Hnil.
  pose proof (DecimalPos.Unsigned.of_to p) as Hof.
  pose proof (parseDigits_uint (Pos.to_uint p)) as Hpd.
  rewrite Hof in Hpd.
  destruct (Pos.to_uint p); [done|..]; exact Hpd.
Qed.

Lemma toString_no_dash n :
  0 <= n ->
  allChars (fun c => negb (Ascii.eqb c "-")) (JS.Number_toString n) = true.
Proof.
  intros Hn. destruct (toString_digits n Hn) as (c & s & -> & Hd).
  eapply allChars_impl; [apply isDigit_not_dash | exact Hd].
Qed.

Lemma toString_truthy n : 0 <= n -> JS.truthy (JS.Number_toString n) = true.
Proof. intros Hn. by destruct (toString_digits n Hn) as (c & s & -> & _). Qed.

End Numerals.

(** ** The response object *)

Section ResponseFacts.

Lemma headers_assemble_type name enc res :
  headers (assembleHeaders name enc res) !! "Content-Type"
  = Some "model/gltf-binary".
Proof.
  unfold assembleHeaders.
  destruct (JS.truthy enc), (JS.includes name "-optimized"); cbn;
    by simplify_map_eq.
Qed.

Lemma headers_assemble_encoding name enc res :
  headers (assembleHeaders name enc res) !! "Content-Encoding"
  = if JS.truthy enc then Some enc else headers res !! "Content-Encoding".
Proof.
  unfold assembleHeaders.
  destruct (JS.truthy enc), (JS.includes name "-optimized"); cbn;
    by simplify_map_eq.
Qed.

Lemma headers_assemble_cache name enc res :
  headers (assembleHeaders name enc res) !! "Cache-Control"
  = Some (if JS.includes name "-optimized"
          then "public, max-age=31536000, immutable"
          else "public, max-age=86400").
Proof.
  unfold assembleHeaders.
  destruct (JS.truthy enc), (JS.includes name "-optimized"); cbn;
    by simplify_map_eq.
Qed.

Lemma statusCode_assemble name enc res :
  statusCode (assembleHeaders name enc res) = statusCode res.
Proof.
  unfold assembleHeaders.
  by destruct (JS.truthy enc), (JS.includes name "-optimized").
Qed.

(** Headers that [assembleHeaders] does not name are left alone. *)
Lemma headers_assemble_other name enc res h :
  h <> "Content-Type" -> h <> "Content-Encoding" -> h <> "Cache-Control" ->
  headers (assembleHeaders name enc res) !! h = headers res !! h.
Proof.
  intros. unfold assembleHeaders.
  destruct (JS.truthy enc), (JS.includes name "-optimized"); cbn;
    by simplify_map_eq.
Qed.

End ResponseFacts.

(** ** The handler *)

Section HandlerFacts.

Variable modelsDir : string.
Variable path_join : string -> string -> string.

Local Abbreviation originalPath := (originalPath modelsDir path_join).
Local Abbreviation handler := (handler modelsDir path_join).
Local Abbreviation selectedPath := (selectedPath modelsDir path_join).
Local Abbreviation selectedEncoding := (selectedEncoding modelsDir path_join).

Lemma existsSync_true fs p : existsSync fs p = true <-> is_Some (fs !! p).
Proof. unfold existsSync. apply bool_decide_eq_true. Qed.

Lemma existsSync_false fs p : existsSync fs p = false <-> fs !! p = None.
Proof.
  unfold existsSync. rewrite bool_decide_eq_false.
  symmetry. apply eq_None_not_Some.
Qed.

(** The chosen path is one of three, and it exists when the canonical
    file does. *)
Lemma chooseVariant_exists fs acceptEnc orig :
  is_Some (fs !! orig) ->
  is_Some (fs !! (chooseVariant fs acceptEnc orig).1).
Proof.
  intros Horig. unfold chooseVariant.
  destruct (JS.includes acceptEnc "br" && existsSync fs (orig ++ ".br")) eqn:Hbr.
  { apply andb_true_iff in Hbr as [_ Hbr]. by apply existsSync_true. }
  destruct (JS.includes acceptEnc "gzip" && existsSync fs (orig ++ ".gz")) eqn:Hgz.
  { apply andb_true_iff in Hgz as [_ Hgz]. by apply existsSync_true. }
  done.
Qed.

(** For an existing asset the handler is [serve] on the selected
    variant. *)
Lemma handler_existing fs req v :
  is_Some (fs !! originalPath (params_file req)) ->
  fs !! selectedPath fs req = Some v ->
  handler fs req
  = serve fs req (selectedPath fs req) (selectedEncoding fs req)
      (mkStats (Z.of_nat (length (content v)))) entered.
Proof.
  intros Horig Hv. unfold handler, selectedPath, selectedEncoding in *.
  apply existsSync_true in Horig. rewrite Horig. cbn [negb].
  destruct (chooseVariant fs _ _) as [p enc]. cbn [fst snd] in *.
  unfold statSync. by rewrite Hv.
Qed.

Lemma selected_is_Some fs req :
  is_Some (fs !! originalPath (params_file req)) ->
  is_Some (fs !! selectedPath fs req).
Proof. apply chooseVariant_exists. Qed.

(** *** Missing assets *)

(** Lines 84-86: nothing at the joined path, 404. *)
Lemma missing_asset_404 (fs : gmap string File) (req : Request) :
  fs !! originalPath (params_file req) = None ->
  statusCode (handler fs req) = 404
  /\ body (handler fs req) = list_byte_of_string "Not found".
Proof.
  intros Hmiss. unfold handler.
  apply existsSync_false in Hmiss. by rewrite Hmiss.
Qed.

(** *** Full-body answers *)

(** Without a [Range] header the body is the selected file. *)
Lemma body_without_range fs req v :
  is_Some (fs !! originalPath (params_file req)) ->
  fs !! selectedPath fs req = Some v ->
  headers_range req = None ->
  body (handler fs req) = content v.
Proof.
  intros Horig Hv Hrange.
  rewrite (handler_existing _ _ _ Horig Hv). unfold serve.
  rewrite Hrange. cbn [JS.truthy_opt].
  unfold createReadStream. by rewrite Hv.
Qed.

(** C7. Without a [Range] header an existing asset is answered with
    status 200, [Accept-Ranges: bytes], a [Content-Length] that is the
    size of the selected variant, and all bytes of that variant. *)
Theorem no_range_full_body (fs : gmap string File) (req : Request) (v : File) :
  is_Some (fs !! originalPath (params_file req)) ->
  fs !! selectedPath fs req = Some v ->
  headers_range req = None ->
  statusCode (handler fs req) = 200
  /\ headers (handler fs req) !! "Accept-Ranges" = Some "bytes"
  /\ headers (handler fs req) !! "Content-Length"
     = Some (JS.Number_toString (Z.of_nat (length (content v))))
  /\ body (handler fs req) = content v.
Proof.
  intros Horig Hv Hrange.
  rewrite (handler_existing _ _ _ Horig Hv). unfold serve.
  rewrite Hrange. cbn [JS.truthy_opt].
  unfold createReadStream. rewrite Hv. cbn.
  rewrite statusCode_assemble. by simplify_map_eq.
Qed.

(** *** Caching policy *)

(** C8. For an existing asset the [Cache-Control] header depends on
    the requested name only: one year and [immutable] when the name
    contains [-optimized], one day otherwise. *)
Theorem cache_control_by_name (fs : gmap string File) (req : Request) :
  is_Some (fs !! originalPath (params_file req)) ->
  headers (handler fs req) !! "Cache-Control"
  = Some (if JS.includes (params_file req) "-optimized"
          then "public, max-age=31536000, immutable"
          else "public, max-age=86400").
Proof.
  intros Horig.
  destruct (selected_is_Some _ _ Horig) as [v Hv].
  rewrite (handler_existing _ _ _ Horig Hv). unfold serve, rangeNotSatisfiable.
  pose proof (headers_assemble_cache (params_file req)
                (selectedEncoding fs req) entered) as Hc.
  unfold createReadStream. rewrite Hv.
  repeat case_match; cbn; by simplify_map_eq.
Qed.

(** *** Reading the [Range] header *)

(** [bytes=a-rest] splits into [a] and the parts of [rest] when [a] has
    no dash. *)
Lemma rangeParts_bytes a rest :
  allChars (fun c => negb (Ascii.eqb c "-")) a = true ->
  rangeParts ("bytes=" ++ a ++ "-" ++ rest) = a :: JS.split "-" rest.
Proof.
  intros Ha. unfold rangeParts.
  rewrite (replace_at_start "bytes=" "" (a ++ "-" ++ rest)).
  exact (split_app_sep "-" a rest Ha).
Qed.

(** The header [bytes=<start>-<end>] written with two naturals is read
    back as these two numbers. *)
Lemma range_of_bounds start end_ total :
  0 <= start -> 0 <= end_ ->
  let r := "bytes=" ++ JS.Number_toString start ++ "-" ++ JS.Number_toString end_ in
  rangeStart r = Some start /\ rangeEnd r total = Some end_.
Proof.
  intros Hs He r. unfold rangeStart, rangeEnd. subst r.
  rewrite (rangeParts_bytes _ _ (toString_no_dash _ Hs)).
  rewrite (split_no_sep _ _ (toString_no_dash _ He)).
  cbn [lookup list_lookup JS.parseInt_opt JS.truthy_opt].
  rewrite (toString_truthy _ He).
  by rewrite !parseInt_toString.
Qed.

(** The start bound never carries a sign: it is read from a text
    without a dash, so it is [NaN] or at least 0. *)
Lemma parseDigits_nonneg s acc : 0 <= acc -> 0 <= JS.parseDigits acc s.
Proof.
  revert acc. induction s as [|c s IH]; intros acc Hacc; simpl; [done|].
  destruct (JS.isDigit c) eqn:Hc; [|done].
  apply IH. unfold JS.digitValue. unfold JS.isDigit in Hc. cbv zeta in Hc.
  apply andb_true_iff in Hc as [Hc _]. apply N.leb_le in Hc. lia.
Qed.

Lemma skipWhiteSpace_no_dash s :
  allChars (fun c => negb (Ascii.eqb c "-")) s = true ->
  allChars (fun c => negb (Ascii.eqb c "-")) (JS.skipWhiteSpace s) = true.
Proof.
  induction s as [|c s IH]; [done|]. intros Hs.
  change (JS.skipWhiteSpace (String c s))
    with (if JS.isWhiteSpace c then JS.skipWhiteSpace s else String c s).
  destruct (JS.isWhiteSpace c); [|done].
  simpl in Hs. apply andb_true_iff in Hs as [_ Hs]. by apply IH.
Qed.

Lemma parseUnsigned_nonneg s n : JS.parseUnsigned s = Some n -> 0 <= n.
Proof.
  destruct s as [|c s]; [done|]. unfold JS.parseUnsigned.
  destruct (JS.isDigit c); [|done]. intros [= <-].
  by apply (parseDigits_nonneg (String c s) 0).
Qed.

Lemma parseInt_no_dash_nonneg s n :
  allChars (fun c => negb (Ascii.eqb c "-")) s = true ->
  JS.parseInt s = Some n -> 0 <= n.
Proof.
  intros Hs%skipWhiteSpace_no_dash. unfold JS.parseInt.
  destruct (JS.skipWhiteSpace s) as [|c t]; [done|].
  simpl in Hs. apply andb_true_iff in Hs as [Hc _].
  apply negb_true_iff, Ascii.eqb_neq in Hc.
  destruct (Ascii.eqb_spec c "+") as [-> | Hplus].
  - apply parseUnsigned_nonneg.
  - rewrite parseSigned_unsigned by done. apply parseUnsigned_nonneg.
Qed.

Lemma rangeStart_nonneg r n : rangeStart r = Some n -> 0 <= n.
Proof.
  unfold rangeStart, rangeParts.
  destruct (JS.split "-" (JS.replace "bytes=" "" r)) as [|h t] eqn:Hsplit;
    [done|].
  apply split_head_no_sep in Hsplit. cbn. by apply parseInt_no_dash_nonneg.
Qed.

(** *** Range answers *)

(** The three ways out of [serve] for a request with a [Range]
    header. *)
Lemma serve_range_unparsed fs req p enc st res r :
  headers_range req = Some r -> r <> "" ->
  rangeStart r = None \/ rangeEnd r (size st) = None ->
  serve fs req p enc st res
  = rangeNotSatisfiable (size st) (assembleHeaders (params_file req) enc res).
Proof.
  intros Hr Hne Hnan. unfold serve. rewrite Hr. cbn [JS.truthy_opt from_option id].
  destruct r; [done|]. cbn [JS.truthy].
  destruct Hnan as [-> | ->]; [done|]. by destruct (rangeStart _).
Qed.

Lemma serve_range_inverted fs req p enc st res r start end_ :
  headers_range req = Some r -> r <> "" ->
  rangeStart r = Some start -> rangeEnd r (size st) = Some end_ ->
  start > end_ ->
  serve fs req p enc st res
  = rangeNotSatisfiable (size st) (assembleHeaders (params_file req) enc res).
Proof.
  intros Hr Hne Hs He Hgt. unfold serve. rewrite Hr. cbn [JS.truthy_opt from_option id].
  destruct r; [done|]. cbn [JS.truthy]. rewrite Hs, He.
  by rewrite (proj2 (Z.gtb_gt _ _)) by lia.
Qed.

(** Whenever both bounds are numbers and the start is not above the end
    the answer is 206, with the bounds copied into the headers; the size
    of the file is not compared with them. *)
Lemma serve_range_ordered fs req p enc (v : File) res r start end_ :
  fs !! p = Some v ->
  headers_range req = Some r -> r <> "" ->
  let total := Z.of_nat (length (content v)) in
  rangeStart r = Some start -> rangeEnd r total = Some end_ ->
  start <= end_ ->
  let out := serve fs req p enc (mkStats total) res in
  statusCode out = 206
  /\ headers out !! "Content-Range"
     = Some ("bytes " ++ JS.Number_toString start ++ "-"
             ++ JS.Number_toString end_ ++ "/" ++ JS.Number_toString total)
  /\ headers out !! "Accept-Ranges" = Some "bytes"
  /\ headers out !! "Content-Length"
     = Some (JS.Number_toString (end_ - start + 1))
  /\ body out = byteRange start end_ (content v).
Proof.
  intros Hv Hr Hne total Hs He Hle out. subst out. unfold serve.
  rewrite Hr. cbn [JS.truthy_opt from_option id].
  destruct r; [done|]. cbn [JS.truthy size]. fold total. rewrite Hs, He.
  assert ((start >? end_) = false) as -> by lia.
  unfold createReadStream. rewrite Hv. cbn. by simplify_map_eq.
Qed.

(** The same at the level of the handler: an ordered pair of numeric
    bounds up to [MAX_SAFE_INTEGER] is answered with 206 whatever the
    size of the file. *)
Lemma ordered_range_206 fs req v r start end_ :
  is_Some (fs !! originalPath (params_file req)) ->
  fs !! selectedPath fs req = Some v ->
  headers_range req = Some r -> r <> "" ->
  rangeStart r = Some start ->
  rangeEnd r (Z.of_nat (length (content v))) = Some end_ ->
  start <= end_ -> end_ <= MAX_SAFE_INTEGER ->
  statusCode (handler fs req) = 206.
Proof.
  intros Horig Hv Hr Hne Hs He Hle _.
  rewrite (handler_existing _ _ _ Horig Hv).
  by apply (serve_range_ordered fs req _ _ v entered r start end_).
Qed.

Lemma rangeNotSatisfiable_spec total res :
  let out := rangeNotSatisfiable total res in
  statusCode out = 416
  /\ headers out !! "Content-Range" = Some ("bytes */" ++ JS.Number_toString total)
  /\ body out = [].
Proof. cbn. by simplify_map_eq. Qed.

Lemma byteRange_length start end_ (bytes : list Byte.byte) :
  0 <= start <= end_ -> end_ < Z.of_nat (length bytes) ->
  Z.of_nat (length (byteRange start end_ bytes)) = end_ - start + 1.
Proof.
  intros Hse He. unfold byteRange. rewrite length_take, length_drop. lia.
Qed.

(** C1. A range request [bytes=<start>-<end>] with
    [0 <= start <= end < total], [total] being the size of the selected
    variant, is answered with status 206,
    [Content-Range: bytes <start>-<end>/<total>], [Accept-Ranges: bytes],
    a [Content-Length] of [end-start+1], and a body of exactly that many
    bytes: those at offsets [start] to [end] of the body the same request
    gets without its [Range] header. *)
Theorem range_request_partial_content
    (fs : gmap string File) (req : Request) (v : File) (start end_ : Z) :
  is_Some (fs !! originalPath (params_file req)) ->
  fs !! selectedPath fs req = Some v ->
  0 <= start <= end_ ->
  end_ < Z.of_nat (length (content v)) ->
  headers_range req
  = Some ("bytes=" ++ JS.Number_toString start ++ "-" ++ JS.Number_toString end_) ->
  let total := Z.of_nat (length (content v)) in
  let partial := handler fs req in
  let full := handler fs (withoutRange req) in
  statusCode partial = 206
  /\ headers partial !! "Content-Range"
     = Some ("bytes " ++ JS.Number_toString start ++ "-"
             ++ JS.Number_toString end_ ++ "/" ++ JS.Number_toString total)
  /\ headers partial !! "Accept-Ranges" = Some "bytes"
  /\ headers partial !! "Content-Length"
     = Some (JS.Number_toString (end_ - start + 1))
  /\ Z.of_nat (length (body partial)) = end_ - start + 1
  /\ body partial
     = take (Z.to_nat (end_ - start + 1)) (drop (Z.to_nat start) (body full)).
Proof.
  intros Horig Hv Hse He Hr total partial full.
  assert (body full = content v) as Hfull.
  { by apply (body_without_range fs (withoutRange req) v). }
  destruct (range_of_bounds start end_ total) as [Hs Hend]; [lia..|].
  destruct (serve_range_ordered fs req (selectedPath fs req)
              (selectedEncoding fs req) v entered _ start end_ Hv Hr)
    as (H1 & H2 & H3 & H4 & H5); [done|done|done|lia|].
  subst partial. rewrite (handler_existing _ _ _ Horig Hv).
  rewrite H5, Hfull. repeat split; try done.
  by apply byteRange_length.
Qed.

(** C5. A request with a [Range] header whose start or end bound does
    not read as a number, or whose bounds read as [start > end], is
    answered with status 416, [Content-Range: bytes */<total>] for the
    size [total] of the selected variant, and no body.  The two bounds
    that are compared are numerals up to [MAX_SAFE_INTEGER], which the
    code reads as they are written. *)
Theorem bad_range_416
    (fs : gmap string File) (req : Request) (v : File) (r : string) :
  is_Some (fs !! originalPath (params_file req)) ->
  fs !! selectedPath fs req = Some v ->
  headers_range req = Some r -> r <> "" ->
  let total := Z.of_nat (length (content v)) in
  (rangeStart r = None
   \/ rangeEnd r total = None
   \/ exists start end_,
        rangeStart r = Some start /\ rangeEnd r total = Some end_
        /\ start > end_
        /\ start <= MAX_SAFE_INTEGER /\ end_ <= MAX_SAFE_INTEGER) ->
  statusCode (handler fs req) = 416
  /\ headers (handler fs req) !! "Content-Range"
     = Some ("bytes */" ++ JS.Number_toString total)
  /\ body (handler fs req) = [].
Proof.
  intros Horig Hv Hr Hne total Hbad.
  rewrite (handler_existing _ _ _ Horig Hv).
  destruct Hbad as [Hs | [He | (start & end_ & Hs & He & Hgt & _ & _)]].
  - rewrite (serve_range_unparsed _ _ _ _ _ _ r); auto.
    apply rangeNotSatisfiable_spec.
  - rewrite (serve_range_unparsed _ _ _ _ _ _ r); auto.
    apply rangeNotSatisfiable_spec.
  - rewrite (serve_range_inverted _ _ _ _ _ _ r start end_); auto.
    apply rangeNotSatisfiable_spec.
Qed.

(** C9. A suffix range [bytes=-<N>] is never served as the last [N]
    bytes: the text before the dash is empty and does not read as a
    number, so the answer is 416 with [Content-Range: bytes */<total>]
    and no body, whatever follows the dash. *)
Theorem suffix_range_416
    (fs : gmap string File) (req : Request) (v : File) (suffix : string) :
  is_Some (fs !! originalPath (params_file req)) ->
  fs !! selectedPath fs req = Some v ->
  headers_range req = Some ("bytes=-" ++ suffix) ->
  statusCode (handler fs req) = 416
  /\ headers (handler fs req) !! "Content-Range"
     = Some ("bytes */" ++ JS.Number_toString (Z.of_nat (length (content v))))
  /\ body (handler fs req) = [].
Proof.
  intros Horig Hv Hr.
  rewrite (handler_existing _ _ _ Horig Hv).
  rewrite (serve_range_unparsed _ _ _ _ _ _ _ Hr); [|done|].
  - apply rangeNotSatisfiable_spec.
  - left. unfold rangeStart.
    change ("bytes=-" ++ suffix) with ("bytes=" ++ "" ++ "-" ++ suffix).
    by rewrite rangeParts_bytes.
Qed.

(** *** Variant selection *)

Lemma handler_content_encoding fs req :
  is_Some (fs !! originalPath (params_file req)) ->
  headers (handler fs req) !! "Content-Encoding"
  = if JS.truthy (selectedEncoding fs req)
    then Some (selectedEncoding fs req) else None.
Proof.
  intros Horig.
  destruct (selected_is_Some _ _ Horig) as [v Hv].
  rewrite (handler_existing _ _ _ Horig Hv). unfold serve, rangeNotSatisfiable.
  pose proof (headers_assemble_encoding (params_file req)
                (selectedEncoding fs req) entered) as Hc.
  replace (headers entered !! "Content-Encoding") with (@None string) in Hc
    by done.
  unfold createReadStream. rewrite Hv.
  repeat case_match; cbn; by simplify_map_eq.
Qed.

(** In the embedding, where a read stream is opened for any pair of
    bounds, an existing asset is answered with 200, 206 or 416. *)
Lemma handler_status fs req :
  is_Some (fs !! originalPath (params_file req)) ->
  statusCode (handler fs req) = 200
  \/ statusCode (handler fs req) = 206
  \/ statusCode (handler fs req) = 416.
Proof.
  intros Horig.
  destruct (selected_is_Some _ _ Horig) as [v Hv].
  rewrite (handler_existing _ _ _ Horig Hv). unfold serve, rangeNotSatisfiable.
  pose proof (statusCode_assemble (params_file req)
                (selectedEncoding fs req) entered) as Hc.
  unfold createReadStream. rewrite Hv.
  repeat case_match; cbn; auto.
Qed.

(** C2. The variant is chosen by substring tests on [Accept-Encoding]
    in a fixed order.  If the header contains [br] and the [.br] sibling
    exists, that sibling is served with [Content-Encoding: br]; else if
    the header contains [gzip] and the [.gz] sibling exists, that sibling
    is served with [Content-Encoding: gzip]; else the canonical file is
    served without a [Content-Encoding] header.  With both siblings
    present and both names in the header the first case applies, so
    brotli wins. *)
Theorem variant_by_accept_encoding (fs : gmap string File) (req : Request) :
  is_Some (fs !! originalPath (params_file req)) ->
  let orig := originalPath (params_file req) in
  let acceptEnc := default "" (headers_accept_encoding req) in
  let br := JS.includes acceptEnc "br" && bool_decide (is_Some (fs !! (orig ++ ".br"))) in
  let gz := JS.includes acceptEnc "gzip" && bool_decide (is_Some (fs !! (orig ++ ".gz"))) in
  let served (p : string) :=
    selectedPath fs req = p
    /\ forall v, fs !! p = Some v ->
                 body (handler fs (withoutRange req)) = content v in
  (br = true ->
     headers (handler fs req) !! "Content-Encoding" = Some "br"
     /\ served (orig ++ ".br"))
  /\ (br = false -> gz = true ->
        headers (handler fs req) !! "Content-Encoding" = Some "gzip"
        /\ served (orig ++ ".gz"))
  /\ (br = false -> gz = false ->
        headers (handler fs req) !! "Content-Encoding" = None
        /\ served orig).
Proof.
  intros Horig orig acceptEnc. cbv zeta.
  pose proof (handler_content_encoding fs req Horig) as Henc.
  assert (forall v, fs !! selectedPath fs req = Some v ->
                    body (handler fs (withoutRange req)) = content v) as Hbody.
  { intros v Hv. by apply (body_without_range fs (withoutRange req) v). }
  unfold selectedPath, selectedEncoding, chooseVariant, existsSync in *.
  fold orig acceptEnc in Henc, Hbody |- *.
  destruct (JS.includes acceptEnc "br" && _) eqn:Hbr;
    destruct (JS.includes acceptEnc "gzip" && _) eqn:Hgz;
    cbn [fst snd] in *; repeat split; intros; try done; by apply Hbody.
Qed.

(** C10. Without an [Accept-Encoding] header the header counts as the
    empty text: the canonical file is served, no [Content-Encoding] is
    set, the siblings have no influence on the answer, and the answer is
    not a server error; the last for a request without [Range] header
    or with bounds up to [MAX_SAFE_INTEGER], which are the bounds a read
    stream is opened for. *)
Theorem no_accept_encoding_identity (fs : gmap string File) (req : Request) :
  is_Some (fs !! originalPath (params_file req)) ->
  headers_accept_encoding req = None ->
  let orig := originalPath (params_file req) in
  selectedPath fs req = orig
  /\ headers (handler fs req) !! "Content-Encoding" = None
  /\ handler fs req = handler (delete (orig ++ ".gz") (delete (orig ++ ".br") fs)) req
  /\ ((forall r canonical start end_,
         headers_range req = Some r ->
         fs !! orig = Some canonical ->
         rangeStart r = Some start ->
         rangeEnd r (Z.of_nat (length (content canonical))) = Some end_ ->
         start <= MAX_SAFE_INTEGER /\ end_ <= MAX_SAFE_INTEGER) ->
      statusCode (handler fs req) <> 500).
Proof.
  intros Horig Hae orig.
  assert (forall fs', selectedPath fs' req = orig
                      /\ selectedEncoding fs' req = "") as Hsel.
  { intros fs'. unfold selectedPath, selectedEncoding, chooseVariant.
    by rewrite Hae. }
  pose proof (handler_content_encoding fs req Horig) as Henc.
  rewrite (proj2 (Hsel fs)) in Henc.
  split; [apply Hsel|]. split; [exact Henc|]. split.
  - destruct Horig as [v Hv]. fold orig in Hv.
    set (fs' := delete (orig ++ ".gz") (delete (orig ++ ".br") fs)).
    assert (fs' !! orig = Some v) as Hv'.
    { unfold fs'. rewrite !lookup_delete_ne; [done|..]; apply string_app_neq. }
    rewrite (handler_existing fs req v);
      [|by eexists|by rewrite (proj1 (Hsel fs))].
    rewrite (handler_existing fs' req v);
      [|by eexists|by rewrite (proj1 (Hsel fs'))].
    rewrite (proj1 (Hsel fs)), (proj1 (Hsel fs')).
    rewrite (proj2 (Hsel fs)), (proj2 (Hsel fs')).
    unfold serve, createReadStream. by rewrite Hv, Hv'.
  - intros _. destruct (handler_status fs req Horig) as [-> | [-> | ->]]; done.
Qed.

(** *** Modification times *)

Lemma lookup_retime clock fs p :
  retime clock fs !! p = (fun f => mkFile (content f) (clock p f)) <$> fs !! p.
Proof. unfold retime. rewrite map_lookup_imap. by destruct (fs !! p). Qed.

Lemma existsSync_retime clock fs p :
  existsSync (retime clock fs) p = existsSync fs p.
Proof.
  unfold existsSync. rewrite lookup_retime.
  apply bool_decide_ext. by rewrite fmap_is_Some.
Qed.

Lemma statSync_retime clock fs p :
  statSync (retime clock fs) p = statSync fs p.
Proof. unfold statSync. rewrite lookup_retime. by destruct (fs !! p). Qed.

Lemma createReadStream_retime clock fs p opts :
  createReadStream (retime clock fs) p opts = createReadStream fs p opts.
Proof. unfold createReadStream. rewrite lookup_retime. by destruct (fs !! p). Qed.

Lemma chooseVariant_retime clock fs acceptEnc orig :
  chooseVariant (retime clock fs) acceptEnc orig = chooseVariant fs acceptEnc orig.
Proof. unfold chooseVariant. by rewrite !existsSync_retime. Qed.

(** The answer is the same for any modification times of the files. *)
Lemma selection_ignores_mtime
    (clock : string -> File -> Z) (fs : gmap string File) (req : Request) :
  handler (retime clock fs) req = handler fs req.
Proof.
  unfold handler. rewrite existsSync_retime, chooseVariant_retime.
  destruct (negb _); [done|].
  destruct (chooseVariant fs _ _) as [p enc].
  rewrite statSync_retime. destruct (statSync fs p) as [st|]; [|done].
  unfold serve. repeat case_match; by rewrite ?createReadStream_retime.
Qed.

(** C3, as the code has it.  Modification times are not consulted, so a
    sibling older than the canonical file is treated like a fresh one:
    the answer is the same for any modification times of the files; a
    [.br] sibling older than the canonical file is served with
    [Content-Encoding: br] whenever [Accept-Encoding] contains [br]; and
    a [.gz] sibling older than the canonical file is served with
    [Content-Encoding: gzip] whenever [Accept-Encoding] contains [gzip]
    and the brotli variant is not the one selected. *)
Theorem stale_sibling_served_like_fresh
    (fs : gmap string File) (req : Request) (canonical : File) :
  let orig := originalPath (params_file req) in
  let acceptEnc := default "" (headers_accept_encoding req) in
  fs !! orig = Some canonical ->
  (forall clock, handler (retime clock fs) req = handler fs req)
  /\ (forall sibling,
        fs !! (orig ++ ".br") = Some sibling ->
        mtimeMs sibling < mtimeMs canonical ->
        JS.includes acceptEnc "br" = true ->
        headers (handler fs req) !! "Content-Encoding" = Some "br"
        /\ body (handler fs (withoutRange req)) = content sibling)
  /\ (forall sibling,
        fs !! (orig ++ ".gz") = Some sibling ->
        mtimeMs sibling < mtimeMs canonical ->
        JS.includes acceptEnc "gzip" = true ->
        JS.includes acceptEnc "br" && existsSync fs (orig ++ ".br") = false ->
        headers (handler fs req) !! "Content-Encoding" = Some "gzip"
        /\ body (handler fs (withoutRange req)) = content sibling).
Proof.
  intros orig acceptEnc Hcanonical.
  assert (is_Some (fs !! originalPath (params_file req))) as Horig by eauto.
  pose proof (handler_content_encoding fs req Horig) as Henc.
  assert (forall v, fs !! selectedPath fs req = Some v ->
                    body (handler fs (withoutRange req)) = content v) as Hbody.
  { intros v Hv. by apply (body_without_range fs (withoutRange req) v). }
  unfold selectedPath, selectedEncoding, chooseVariant in Henc, Hbody.
  fold orig acceptEnc in Henc, Hbody.
  split; [intros clock; apply selection_ignores_mtime|]. split.
  - intros sibling Hsib _ Hbr.
    rewrite Hbr, (proj2 (existsSync_true _ _)) in Henc, Hbody by eauto.
    cbn in Henc, Hbody. auto.
  - intros sibling Hsib _ Hgz Hnobr.
    rewrite Hnobr, Hgz, (proj2 (existsSync_true _ _)) in Henc, Hbody by eauto.
    cbn in Henc, Hbody. auto.
Qed.

End HandlerFacts.

(** ** The handler on concrete directories *)

(** The scenarios of the specification. *)
Example chair_optimized_100_199 :
  let r := exampleHandler chairDir
             (mkRequest "chair-optimized.glb" None (Some "bytes=100-199")) in
  statusCode r = 206
  /\ headers r !! "Content-Range" = Some "bytes 100-199/500000"
  /\ headers r !! "Content-Length" = Some "100"
  /\ headers r !! "Cache-Control" = Some "public, max-age=31536000, immutable"
  /\ body r = tens 10.
Proof. vm_compute. repeat split. Qed.

Example lamp_missing :
  statusCode (exampleHandler ∅ (mkRequest "lamp.glb" None None)) = 404.
Proof. reflexivity. Qed.

Example kilo_300_200 :
  let r := exampleHandler kiloDir (mkRequest "kilo.glb" None (Some "bytes=300-200")) in
  statusCode r = 416 /\ headers r !! "Content-Range" = Some "bytes */1000".
Proof. vm_compute. repeat split. Qed.

(** An empty [Range] header is no range request for [if (range)]. *)
Example empty_range_header :
  exampleHandler kiloDir (mkRequest "kilo.glb" None (Some ""))
  = exampleHandler kiloDir (mkRequest "kilo.glb" None None).
Proof. reflexivity. Qed.

(** C4.  The handler compares the bounds with each other, not with the
    size of the file.  On an asset of 1000 bytes the range 2000-3000,
    which starts behind the last byte, is answered with status 206, a
    [Content-Length] of 1001 and no byte at all; the range 0-5000, whose
    end lies behind the last byte, is answered with status 206, a
    [Content-Length] of 5001 and the 1000 bytes there are. *)
Theorem range_beyond_size_answered_206 :
  let past := exampleHandler kiloDir
                (mkRequest "kilo.glb" None (Some "bytes=2000-3000")) in
  let long := exampleHandler kiloDir
                (mkRequest "kilo.glb" None (Some "bytes=0-5000")) in
  (statusCode past = 206
   /\ headers past !! "Content-Range" = Some "bytes 2000-3000/1000"
   /\ headers past !! "Content-Length" = Some "1001"
   /\ body past = [])
  /\ (statusCode long = 206
      /\ headers long !! "Content-Range" = Some "bytes 0-5000/1000"
      /\ headers long !! "Content-Length" = Some "5001"
      /\ body long = tens 100).
Proof. vm_compute. repeat split. Qed.

(** The brotli sibling of [lampDir] is older than [lamp.glb] and is
    nevertheless the variant that is served. *)
Example stale_brotli_served :
  let r := exampleHandler lampDir (mkRequest "lamp.glb" (Some "gzip, deflate, br") None) in
  statusCode r = 200
  /\ headers r !! "Content-Encoding" = Some "br"
  /\ body r = bytesOf "BROTLI".
Proof. vm_compute. repeat split. Qed.

(** The sibling served there is one the precompress script would write
    again. *)
Example stale_brotli_needs_precompress :
  precompressNeeded lampDir "/srv/backend/models/lamp.glb"
    "/srv/backend/models/lamp.glb.br" = true.
Proof. reflexivity. Qed.

(** C3 does not hold as stated: in [lampDir] the request for
    [lamp.glb] with [Accept-Encoding: gzip, deflate, br] is answered
    with [Content-Encoding: br] although [lamp.glb.br] (modified at 100)
    is older than [lamp.glb] (modified at 200). *)
Lemma stale_sibling_not_excluded : ~ staleSiblingExcluded exampleDir exampleJoin.
Proof.
  intros Hclaim.
  apply (Hclaim lampDir (mkRequest "lamp.glb" (Some "gzip, deflate, br") None)
           (mkFile (bytesOf "0123456789") 200) (mkFile (bytesOf "BROTLI") 100)
           ".br" "br").
  - by left.
  - reflexivity.
  - reflexivity.
  - reflexivity.
  - reflexivity.
Qed.

(** ** The theorems at concrete requests *)

Lemma range_request_partial_content_witness :
  let req := mkRequest "lamp.glb" None (Some "bytes=2-4") in
  statusCode (exampleHandler lampDir req) = 206
  /\ headers (exampleHandler lampDir req) !! "Content-Range" = Some "bytes 2-4/10"
  /\ body (exampleHandler lampDir req) = bytesOf "234".
Proof.
  intros req.
  destruct (range_request_partial_content exampleDir exampleJoin lampDir req
              (mkFile (bytesOf "0123456789") 200) 2 4)
    as (Hstatus & Hrange & _ & _ & _ & Hbody).
  - by eexists.
  - reflexivity.
  - lia.
  - vm_compute. reflexivity.
  - reflexivity.
  - split; [exact Hstatus|]. split; [exact Hrange|].
    etransitivity; [exact Hbody|]. reflexivity.
Defined.

Lemma variant_by_accept_encoding_witness :
  let req := mkRequest "lamp.glb" (Some "gzip, deflate, br") None in
  headers (exampleHandler lampDir req) !! "Content-Encoding" = Some "br"
  /\ selectedPath exampleDir exampleJoin lampDir req
     = "/srv/backend/models/lamp.glb.br".
Proof.
  intros req.
  destruct (variant_by_accept_encoding exampleDir exampleJoin lampDir req)
    as (Hbr & _ & _).
  - by eexists.
  - destruct (Hbr eq_refl) as (Henc & Hpath & _). split; [exact Henc|exact Hpath].
Defined.

Lemma bad_range_416_witness :
  let answer (range : string) :=
    exampleHandler kiloDir (mkRequest "kilo.glb" None (Some range)) in
  let refused (range : string) :=
    statusCode (answer range) = 416
    /\ headers (answer range) !! "Content-Range" = Some "bytes */1000"
    /\ body (answer range) = [] in
  refused "bytes=300-200" /\ refused "bytes=abc-200" /\ refused "bytes=300-xyz".
Proof.
  intros answer refused.
  assert (is_Some (kiloDir !! originalPath exampleDir exampleJoin "kilo.glb"))
    as Hkilo by (by eexists).
  split; [|split].
  - apply (bad_range_416 exampleDir exampleJoin kiloDir
             (mkRequest "kilo.glb" None (Some "bytes=300-200"))
             (mkFile (tens 100) 200) "bytes=300-200");
      [exact Hkilo|reflexivity|reflexivity|discriminate|].
    right. right. exists 300, 200.
    repeat split; try reflexivity; unfold MAX_SAFE_INTEGER; lia.
  - apply (bad_range_416 exampleDir exampleJoin kiloDir
             (mkRequest "kilo.glb" None (Some "bytes=abc-200"))
             (mkFile (tens 100) 200) "bytes=abc-200");
      [exact Hkilo|reflexivity|reflexivity|discriminate|].
    left. reflexivity.
  - apply (bad_range_416 exampleDir exampleJoin kiloDir
             (mkRequest "kilo.glb" None (Some "bytes=300-xyz"))
             (mkFile (tens 100) 200) "bytes=300-xyz");
      [exact Hkilo|reflexivity|reflexivity|discriminate|].
    right. left. reflexivity.
Defined.

Lemma no_range_full_body_witness :
  let req := mkRequest "lamp.glb" (Some "gzip") None in
  statusCode (exampleHandler lampDir req) = 200
  /\ headers (exampleHandler lampDir req) !! "Accept-Ranges" = Some "bytes"
  /\ headers (exampleHandler lampDir req) !! "Content-Length" = Some "8"
  /\ body (exampleHandler lampDir req) = bytesOf "GZIPPED!".
Proof.
  intros req.
  apply (no_range_full_body exampleDir exampleJoin lampDir req
           (mkFile (bytesOf "GZIPPED!") 100)).
  - by eexists.
  - reflexivity.
  - reflexivity.
Defined.

Lemma cache_control_by_name_witness :
  headers (exampleHandler chairDir (mkRequest "chair-optimized.glb" None None))
    !! "Cache-Control" = Some "public, max-age=31536000, immutable"
  /\ headers (exampleHandler lampDir (mkRequest "lamp.glb" None None))
       !! "Cache-Control" = Some "public, max-age=86400".
Proof.
  split.
  - apply (cache_control_by_name exampleDir exampleJoin chairDir
             (mkRequest "chair-optimized.glb" None None)).
    by eexists.
  - apply (cache_control_by_name exampleDir exampleJoin lampDir
             (mkRequest "lamp.glb" None None)).
    by eexists.
Defined.

Lemma suffix_range_416_witness :
  let req := mkRequest "kilo.glb" None (Some "bytes=-500") in
  statusCode (exampleHandler kiloDir req) = 416
  /\ headers (exampleHandler kiloDir req) !! "Content-Range" = Some "bytes */1000"
  /\ body (exampleHandler kiloDir req) = [].
Proof.
  intros req.
  apply (suffix_range_416 exampleDir exampleJoin kiloDir req
           (mkFile (tens 100) 200) "500").
  - by eexists.
  - reflexivity.
  - reflexivity.
Defined.

Lemma no_accept_encoding_identity_witness :
  let req := mkRequest "lamp.glb" None (Some "bytes=0-4") in
  selectedPath exampleDir exampleJoin lampDir req = "/srv/backend/models/lamp.glb"
  /\ headers (exampleHandler lampDir req) !! "Content-Encoding" = None
  /\ body (exampleHandler lampDir req) = bytesOf "01234"
  /\ statusCode (exampleHandler lampDir req) <> 500.
Proof.
  intros req.
  destruct (no_accept_encoding_identity exampleDir exampleJoin lampDir req)
    as (Hpath & Henc & _ & Hstatus).
  - by eexists.
  - reflexivity.
  - split; [exact Hpath|]. split; [exact Henc|]. split; [reflexivity|].
    apply Hstatus. intros r canonical start end_ [= <-] _ Hstart Hend.
    change (Some 0 = Some start) in Hstart.
    change (Some 4 = Some end_) in Hend.
    injection Hstart as <-. injection Hend as <-.
    unfold MAX_SAFE_INTEGER. lia.
Defined.

(** ** More facts about strings *)

Section MoreStringFacts.

Lemma includes_cons c s sub :
  JS.includes s sub = true -> JS.includes (String c s) sub = true.
Proof.
  intros H.
  change (JS.includes (String c s) sub)
    with (JS.startsWith (String c s) sub || JS.includes s sub).
  rewrite H. apply orb_true_r.
Qed.

Lemma includes_startsWith s sub :
  JS.startsWith s sub = true -> JS.includes s sub = true.
Proof. intros H. destruct s; simpl; by rewrite H. Qed.

(** A text occurs in whatever is put around it. *)
Lemma includes_app pre sub post : JS.includes (pre ++ sub ++ post) sub = true.
Proof.
  induction pre as [|c pre IH].
  - apply includes_startsWith. exact (startsWith_app sub post).
  - by apply (includes_cons c (pre ++ sub ++ post)).
Qed.

Lemma startsWith_app_l s a b :
  JS.startsWith s (a ++ b) = true -> JS.startsWith s a = true.
Proof.
  revert s. induction a as [|c a IH]; intros s; [done|].
  destruct s as [|d s]; simpl; [done|].
  destruct (Ascii.eqb c d); [apply IH|done].
Qed.

(** Where a text occurs, each of its beginnings occurs. *)
Lemma includes_app_l s a b :
  JS.includes s (a ++ b) = true -> JS.includes s a = true.
Proof.
  induction s as [|c s IH].
  - simpl. rewrite !orb_false_r. apply startsWith_app_l.
  - change (JS.includes (String c s) (a ++ b))
      with (JS.startsWith (String c s) (a ++ b) || JS.includes s (a ++ b)).
    change (JS.includes (String c s) a)
      with (JS.startsWith (String c s) a || JS.includes s a).
    intros [H|H]%orb_true_iff.
    + by rewrite (startsWith_app_l _ _ _ H).
    + rewrite (IH H). apply orb_true_r.
Qed.

Lemma startsWith_toLowerCase s p :
  JS.startsWith s p = true ->
  JS.startsWith (Str.toLowerCase s) (Str.toLowerCase p) = true.
Proof.
  revert s. induction p as [|c p IH]; intros s; [done|].
  destruct s as [|d s]; simpl; [done|].
  destruct (Ascii.eqb_spec c d) as [->|]; [|done].
  rewrite Ascii.eqb_refl. apply IH.
Qed.

(** Lowering the case keeps occurrences. *)
Lemma includes_toLowerCase s p :
  JS.includes s p = true ->
  JS.includes (Str.toLowerCase s) (Str.toLowerCase p) = true.
Proof.
  induction s as [|c s IH].
  - simpl. rewrite !orb_false_r. apply (startsWith_toLowerCase "").
  - change (JS.includes (String c s) p)
      with (JS.startsWith (String c s) p || JS.includes s p).
    intros [H|H]%orb_true_iff.
    + apply includes_startsWith. by apply startsWith_toLowerCase.
    + apply (includes_cons (Str.toLowerChar c)). by apply IH.
Qed.

(** Without an occurrence of the pattern [replace] changes nothing. *)
Lemma replace_absent pat repl s :
  JS.includes s pat = false -> JS.replace pat repl s = s.
Proof.
  induction s as [|c s IH].
  - simpl. rewrite orb_false_r. by intros ->.
  - change (JS.includes (String c s) pat)
      with (JS.startsWith (String c s) pat || JS.includes s pat).
    intros [H1 H2]%orb_false_iff.
    change (JS.replace pat repl (String c s))
      with (if JS.startsWith (String c s) pat
            then repl ++ JS.drop_chars (String.length pat) (String c s)
            else String c (JS.replace pat repl s)).
    by rewrite H1, (IH H2).
Qed.

(** The extension [.glb] at the end of a name that has no other
    [.glb] in it is the occurrence that [replace] takes away. *)
Lemma replace_glb_suffix base :
  JS.includes base ".glb" = false ->
  JS.replace ".glb" "" (base ++ ".glb") = base.
Proof.
  induction base as [|c base IH]; [done|].
  change (JS.includes (String c base) ".glb")
    with (JS.startsWith (String c base) ".glb" || JS.includes base ".glb").
  intros [H1 H2]%orb_false_iff.
  change (JS.replace ".glb" "" (String c base ++ ".glb"))
    with (if JS.startsWith (String c (base ++ ".glb")) ".glb"
          then "" ++ JS.drop_chars 4 (String c (base ++ ".glb"))
          else String c (JS.replace ".glb" "" (base ++ ".glb"))).
  assert (JS.startsWith (String c (base ++ ".glb")) ".glb" = false) as ->.
  { clear IH H2. cbn [JS.startsWith] in H1 |- *.
    destruct (Ascii.eqb "." c); [|done].
    destruct base as [|c1 s]; [reflexivity|].
    change (String c1 s ++ ".glb") with (String c1 (s ++ ".glb")).
    cbn [JS.startsWith] in H1 |- *.
    destruct (Ascii.eqb "g" c1); [|done].
    destruct s as [|c2 s]; [reflexivity|].
    change (String c2 s ++ ".glb") with (String c2 (s ++ ".glb")).
    cbn [JS.startsWith] in H1 |- *.
    destruct (Ascii.eqb "l" c2); [|done].
    destruct s as [|c3 s]; [reflexivity|].
    change (String c3 s ++ ".glb") with (String c3 (s ++ ".glb")).
    cbn [JS.startsWith] in H1 |- *.
    by destruct (Ascii.eqb "b" c3). }
  by rewrite (IH H2).
Qed.

End MoreStringFacts.

(** ** The CORS origin callback *)

Section CorsFacts.

(** X1.  A tunnel domain is looked for anywhere in the origin: an
    origin that has [.devtunnels.ms], [.tunnels.ngrok.io] or [.loca.lt]
    somewhere in it is allowed, whatever stands before and after. *)
Theorem cors_tunnel_marker_anywhere (pre post : string) :
  corsOrigin (Some (pre ++ ".devtunnels.ms" ++ post)) = CorsAllow
  /\ corsOrigin (Some (pre ++ ".tunnels.ngrok.io" ++ post)) = CorsAllow
  /\ corsOrigin (Some (pre ++ ".loca.lt" ++ post)) = CorsAllow.
Proof.
  assert (forall m, JS.truthy m = true -> JS.truthy (pre ++ m ++ post) = true)
    as Htruthy.
  { intros m Hm. destruct pre; [|done]. by destruct m. }
  unfold corsOrigin. cbn [JS.truthy_opt from_option id].
  rewrite !Htruthy by done. cbn [negb].
  rewrite !includes_app. by rewrite !orb_true_r.
Qed.

(** X2.  The list of local origins is matched as a whole: an origin that
    continues one of the listed origins by at least one character (a
    trailing slash, a path) and has no tunnel domain in it is refused. *)
Theorem cors_listed_origin_extended (listed : string) (c : ascii) (rest : string) :
  In listed allowedOrigins ->
  let origin := listed ++ String c rest in
  JS.includes origin ".devtunnels.ms" = false ->
  JS.includes origin ".tunnels.ngrok.io" = false ->
  JS.includes origin ".loca.lt" = false ->
  corsOrigin (Some origin) = CorsError "Not allowed by CORS".
Proof.
  intros Hin origin H1 H2 H3. unfold corsOrigin.
  cbn [JS.truthy_opt from_option id]. fold origin.
  rewrite H1, H2, H3.
  assert (JS.truthy origin = true) as -> by (by destruct listed).
  assert (Str.isListed origin allowedOrigins = false) as ->; [|done].
  unfold origin. simpl in Hin.
  repeat (destruct Hin as [<-|Hin]; [reflexivity|]). done.
Qed.

End CorsFacts.

(** ** The route behind the CORS middleware *)

Section RouteFacts.

Variable modelsDir : string.
Variable path_join : string -> string -> string.

Local Abbreviation originalPath := (originalPath modelsDir path_join).
Local Abbreviation handler := (handler modelsDir path_join).
Local Abbreviation handlerFrom := (handlerFrom modelsDir path_join).
Local Abbreviation modelsRoute := (modelsRoute modelsDir path_join).
Local Abbreviation selectedPath := (selectedPath modelsDir path_join).
Local Abbreviation selectedEncoding := (selectedEncoding modelsDir path_join).

Lemma handlerFrom_new fs req : handlerFrom newResponse fs req = handler fs req.
Proof. reflexivity. Qed.

(** The headers [serve] does not name are those it was handed. *)
Lemma headers_serve_other fs req p enc st res h :
  h <> "Content-Type" -> h <> "Content-Encoding" -> h <> "Cache-Control" ->
  h <> "Content-Range" -> h <> "Accept-Ranges" -> h <> "Content-Length" ->
  headers (serve fs req p enc st res) !! h = headers res !! h.
Proof.
  intros. unfold serve, rangeNotSatisfiable, streamTo.
  pose proof (headers_assemble_other (params_file req) enc res h) as Ha.
  repeat case_match; cbn; simplify_map_eq; auto.
Qed.

Lemma handlerFrom_existing res fs req :
  is_Some (fs !! originalPath (params_file req)) ->
  exists st,
    handlerFrom res fs req
    = serve fs req (selectedPath fs req) (selectedEncoding fs req) st
        (setHeader "Vary" "Accept-Encoding"
           (setHeader "Access-Control-Allow-Origin" "*" res)).
Proof.
  intros Horig.
  destruct (selected_is_Some modelsDir path_join _ _ Horig) as [v Hv].
  exists (mkStats (Z.of_nat (length (content v)))).
  unfold handlerFrom, selectedPath, selectedEncoding in *.
  apply existsSync_true in Horig. rewrite Horig. cbn [negb].
  destruct (chooseVariant fs _ _) as [p enc]. cbn [fst snd] in *.
  unfold statSync. by rewrite Hv.
Qed.

(** X4.  For every origin that the callback of [cors()] lets through,
    an asset that exists is answered with
    [Access-Control-Allow-Origin: *], whatever that origin is and
    whatever was set before, while the methods and headers the
    middleware of lines 56-62 announced stay. *)
Theorem existing_asset_any_origin
    (origin : option string) (res : Response) (fs : gmap string File)
    (req : Request) :
  corsOrigin origin = CorsAllow ->
  is_Some (fs !! originalPath (params_file req)) ->
  exists answer,
    modelsRoute origin res fs req = Some answer
    /\ headers answer !! "Access-Control-Allow-Origin" = Some "*"
    /\ headers answer !! "Access-Control-Allow-Methods"
       = Some "GET, POST, PUT, DELETE"
    /\ headers answer !! "Access-Control-Allow-Headers" = Some "Content-Type".
Proof.
  intros Hallowed Horig. unfold modelsRoute. rewrite Hallowed.
  eexists. split; [reflexivity|].
  destruct (handlerFrom_existing (corsHeaders origin res) fs req Horig)
    as [st ->].
  rewrite !headers_serve_other by done.
  unfold corsHeaders. cbn. by simplify_map_eq.
Qed.

(** X5.  For every origin that the callback of [cors()] lets through,
    the 404 for a missing asset keeps the header of the middleware of
    lines 56-62: [Access-Control-Allow-Origin] is the [Origin] of the
    request, or [*] when the request has none or an empty one. *)
Theorem missing_asset_echoes_origin
    (origin : option string) (res : Response) (fs : gmap string File)
    (req : Request) :
  corsOrigin origin = CorsAllow ->
  fs !! originalPath (params_file req) = None ->
  exists answer,
    modelsRoute origin res fs req = Some answer
    /\ statusCode answer = 404
    /\ headers answer !! "Access-Control-Allow-Origin"
       = Some (match origin with
               | Some (String c o) => String c o
               | _ => "*"
               end).
Proof.
  intros Hallowed Hmiss. unfold modelsRoute. rewrite Hallowed.
  eexists. split; [reflexivity|]. unfold handlerFrom.
  apply existsSync_false in Hmiss. rewrite Hmiss. cbn.
  simplify_map_eq. by destruct origin as [[|c o]|].
Qed.

End RouteFacts.

(** ** The listing endpoints *)

Section SortFacts.

Lemma insert_optimized x l :
  entry_optimized x = true ->
  Str.insertBy compareOptimized x l = x :: l.
Proof.
  intros Hx. destruct l as [|y l]; [done|]. simpl.
  unfold compareOptimized. rewrite Hx. by destruct (entry_optimized y).
Qed.

Lemma insert_plain x front back :
  entry_optimized x = false ->
  Forall (fun e => entry_optimized e = true) front ->
  Forall (fun e => entry_optimized e = false) back ->
  Str.insertBy compareOptimized x (front ++ back)%list = (front ++ x :: back)%list.
Proof.
  intros Hx Hfront Hback. induction Hfront as [|y front Hy _ IH]; simpl.
  - destruct Hback as [|y back Hy _]; [done|]. simpl.
    unfold compareOptimized. by rewrite Hx, Hy.
  - unfold compareOptimized at 1. rewrite Hx, Hy. simpl. by rewrite IH.
Qed.

Lemma Forall_filter_true {A} (f : A -> bool) l :
  Forall (fun x => f x = true) (List.filter f l).
Proof.
  induction l as [|x l IH]; simpl; [constructor|].
  destruct (f x) eqn:Hx; [by constructor|done].
Qed.

(** Sorting with [compareOptimized] moves the optimized entries to the
    front and changes nothing else in the order. *)
Lemma sort_compareOptimized l :
  Str.sort compareOptimized l
  = (List.filter entry_optimized l
     ++ List.filter (fun e => negb (entry_optimized e)) l)%list.
Proof.
  induction l as [|x l IH]; [done|].
  change (Str.sort compareOptimized (x :: l))
    with (Str.insertBy compareOptimized x (Str.sort compareOptimized l)).
  rewrite IH. simpl. destruct (entry_optimized x) eqn:Hx; simpl.
  - by apply insert_optimized.
  - apply insert_plain; [done|apply Forall_filter_true|].
    eapply Forall_impl; [apply Forall_filter_true|].
    intros e He. by apply negb_true_iff.
Qed.

Lemma In_partition {A} (f : A -> bool) l x :
  In x (List.filter f l ++ List.filter (fun e => negb (f e)) l)%list <-> In x l.
Proof.
  rewrite in_app_iff, !filter_In. split; [tauto|].
  intros Hx. destruct (f x); simpl; tauto.
Qed.

End SortFacts.

Section ListingFacts.

Variable modelsDir : string.
Variable path_join : string -> string -> string.

Local Abbreviation originalPath := (originalPath modelsDir path_join).
Local Abbreviation handler := (handler modelsDir path_join).
Local Abbreviation selectedPath := (selectedPath modelsDir path_join).
Local Abbreviation selectedEncoding := (selectedEncoding modelsDir path_join).
Local Abbreviation entryOf := (entryOf modelsDir path_join).
Local Abbreviation listModels := (listModels modelsDir path_join).
Local Abbreviation modelInfo := (modelInfo modelsDir path_join).

Lemma entryOf_Some fs file e :
  entryOf fs file = Some e <->
  exists f, fs !! path_join modelsDir file = Some f
            /\ e = mkEntry file ("/models/" ++ file) (JS.replace ".glb" "" file)
                     (Z.of_nat (length (content f))) (isOptimized file).
Proof.
  unfold entryOf, statSync.
  destruct (fs !! path_join modelsDir file) as [f|]; cbn.
  - split; [intros [= <-]; eauto|]. by intros (f' & [= <-] & ->).
  - split; [done|]. by intros (f' & [=] & _).
Qed.

Lemma Forall2_In_r {A B} (P : A -> B -> Prop) l k y :
  Forall2 P l k -> In y k -> exists x, In x l /\ P x y.
Proof.
  induction 1 as [|x y' l k HP _ IH]; simpl; [done|].
  intros [-> | Hy]; [eauto|]. destruct (IH Hy) as (x' & ? & ?). eauto.
Qed.

Lemma Forall2_In_l {A B} (P : A -> B -> Prop) l k x :
  Forall2 P l k -> In x l -> exists y, In y k /\ P x y.
Proof.
  induction 1 as [|x' y l k HP _ IH]; simpl; [done|].
  intros [-> | Hx]; [eauto|]. destruct (IH Hx) as (y' & ? & ?). eauto.
Qed.

(** What the listing answers when nothing throws. *)
Lemma listModels_json files fs entries :
  listModels (Some files) fs = ApiJson entries <->
  exists es, mapM (entryOf fs) (List.filter isGlb files) = Some es
             /\ entries = (List.filter entry_optimized es
                           ++ List.filter (fun e => negb (entry_optimized e)) es)%list.
Proof.
  unfold listModels.
  destruct (mapM _ _) as [es|]; [|split; [done|by intros (? & [=] & _)]].
  rewrite sort_compareOptimized. split.
  - intros [= <-]. eauto.
  - by intros (es' & [= <-] & ->).
Qed.

(** X6.  The listing is the directory order with the optimized entries
    moved to the front: first the optimized entries in the order of the
    directory, then the others in the order of the directory, and the
    names are those of the directory that end in [.glb] in any case of
    letters. *)
Theorem listing_optimized_first
    (files : list string) (fs : gmap string File) (entries : list ModelEntry) :
  listModels (Some files) fs = ApiJson entries ->
  exists es,
    map entry_name es = List.filter isGlb files
    /\ entries = (List.filter entry_optimized es
                  ++ List.filter (fun e => negb (entry_optimized e)) es)%list.
Proof.
  intros (es & Hes & ->)%listModels_json. exists es. split; [|done].
  apply mapM_Some_1 in Hes. induction Hes as [|file e l k He _ IH]; [done|].
  simpl. rewrite IH. f_equal. apply entryOf_Some in He as (f & _ & ->). done.
Qed.

(** X7.  An entry is listed exactly when it is the entry of a name of
    the directory that ends in [.glb]: its path is [/models/] and the
    name, its size that of the file of this name. *)
Theorem listing_entries
    (files : list string) (fs : gmap string File) (entries : list ModelEntry)
    (e : ModelEntry) :
  listModels (Some files) fs = ApiJson entries ->
  In e entries <->
  exists file f,
    In file files /\ isGlb file = true
    /\ fs !! path_join modelsDir file = Some f
    /\ entry_name e = file
    /\ entry_path e = "/models/" ++ file
    /\ entry_size e = Z.of_nat (length (content f))
    /\ entry_id e = JS.replace ".glb" "" file
    /\ entry_optimized e = isOptimized file.
Proof.
  intros (es & Hes & ->)%listModels_json. rewrite In_partition.
  apply mapM_Some_1 in Hes. split.
  - intros He. destruct (Forall2_In_r _ _ _ _ Hes He) as (file & Hfile & Hentry).
    apply filter_In in Hfile as [Hfile Hglb].
    apply entryOf_Some in Hentry as (f & Hf & ->).
    exists file, f. repeat split; done.
  - intros (file & f & Hfile & Hglb & Hf & H1 & H2 & H3 & H4 & H5).
    assert (In file (List.filter isGlb files)) as Hin by (by apply filter_In).
    destruct (Forall2_In_l _ _ _ _ Hes Hin) as (e' & He' & Hentry).
    apply entryOf_Some in Hentry as (f' & Hf' & ->).
    rewrite Hf in Hf'. injection Hf' as <-.
    destruct e; cbn in *; by subst.
Qed.

(** X8.  The listing fails as a whole, with status 500, exactly when
    the directory cannot be read or a name of the directory that ends in
    [.glb] cannot be stat'ed; names with other endings are never looked
    at. *)
Theorem listing_fails_on_missing_file
    (dirents : option (list string)) (fs : gmap string File) :
  listModels dirents fs = ApiError 500 "Failed to read models directory"
  <-> dirents = None
      \/ exists files file,
           dirents = Some files /\ In file files /\ isGlb file = true
           /\ fs !! path_join modelsDir file = None.
Proof.
  unfold listModels. destruct dirents as [files|]; [|by split; auto].
  split.
  - destruct (mapM _ _) as [es|] eqn:Hes; [done|]. intros _. right.
    apply mapM_None_1, Exists_exists in Hes as (file & Hfile & Hnone).
    apply list_elem_of_In, filter_In in Hfile as [Hfile Hglb].
    exists files, file. repeat split; [done..|].
    unfold entryOf, statSync in Hnone.
    by destruct (fs !! path_join modelsDir file).
  - intros [|(files' & file & [= <-] & Hfile & Hglb & Hnone)]; [done|].
    rewrite (mapM_None_2 (entryOf fs)); [done|].
    apply Exists_exists. exists file. split.
    + apply list_elem_of_In, filter_In. done.
    + unfold entryOf, statSync. by rewrite Hnone.
Qed.

(** X9.  The [optimized] mark is the test for [-optimized] in the
    lower-cased name: the test for [-optimized-draco] in front of it
    never decides. *)
Theorem optimized_mark (file : string) :
  isOptimized file = JS.includes (Str.toLowerCase file) "-optimized".
Proof.
  unfold isOptimized.
  destruct (JS.includes (Str.toLowerCase file) "-optimized-draco") eqn:Hd;
    [|done].
  symmetry. exact (includes_app_l _ "-optimized" "-draco" Hd).
Qed.

(** *** The listing and the route *)

Lemma handler_cache_control fs req :
  is_Some (fs !! originalPath (params_file req)) ->
  headers (handler fs req) !! "Cache-Control"
  = Some (if JS.includes (params_file req) "-optimized"
          then "public, max-age=31536000, immutable"
          else "public, max-age=86400").
Proof.
  intros Horig.
  destruct (selected_is_Some modelsDir path_join _ _ Horig) as [v Hv].
  rewrite (handler_existing modelsDir path_join _ _ _ Horig Hv).
  unfold serve, rangeNotSatisfiable.
  pose proof (headers_assemble_cache (params_file req)
                (selectedEncoding fs req) entered) as Hc.
  unfold createReadStream. rewrite Hv.
  repeat case_match; cbn; by simplify_map_eq.
Qed.

(** The answer to a request without [Accept-Encoding] and without
    [Range]: the canonical file as it is. *)
Lemma identity_full_response fs name f :
  fs !! originalPath name = Some f ->
  let r := handler fs (mkRequest name None None) in
  statusCode r = 200
  /\ headers r !! "Content-Length"
     = Some (JS.Number_toString (Z.of_nat (length (content f))))
  /\ headers r !! "Content-Encoding" = None
  /\ body r = content f.
Proof.
  intros Hf r. subst r.
  assert (selectedPath fs (mkRequest name None None) = originalPath name) as Hp
    by done.
  assert (selectedEncoding fs (mkRequest name None None) = "") as He by done.
  rewrite (handler_existing modelsDir path_join fs _ f);
    [|by eexists|by rewrite Hp].
  rewrite Hp, He. unfold serve, createReadStream. rewrite Hf.
  cbn -[assembleHeaders]. repeat split.
  - by rewrite statusCode_assemble.
  - by simplify_map_eq.
  - rewrite !lookup_insert_ne by done.
    by rewrite headers_assemble_encoding.
Qed.

Lemma listed_entry files fs entries e :
  listModels (Some files) fs = ApiJson entries ->
  In e entries ->
  exists f, isGlb (entry_name e) = true
            /\ fs !! originalPath (entry_name e) = Some f
            /\ e = mkEntry (entry_name e) ("/models/" ++ entry_name e)
                     (JS.replace ".glb" "" (entry_name e))
                     (Z.of_nat (length (content f)))
                     (isOptimized (entry_name e)).
Proof.
  intros (es & Hes & ->)%listModels_json He%In_partition.
  apply mapM_Some_1 in Hes.
  destruct (Forall2_In_r _ _ _ _ Hes He) as (file & Hfile & Hentry).
  apply filter_In in Hfile as [_ Hglb].
  apply entryOf_Some in Hentry as (f & Hf & ->). eauto.
Qed.

(** X10.  A listed model that the route serves with the one-year
    [immutable] cache directive carries the [optimized] mark in the
    listing. *)
Theorem immutable_cache_is_marked_optimized
    (files : list string) (fs : gmap string File) (entries : list ModelEntry)
    (e : ModelEntry) (req : Request) :
  listModels (Some files) fs = ApiJson entries ->
  In e entries ->
  params_file req = entry_name e ->
  headers (handler fs req) !! "Cache-Control"
  = Some "public, max-age=31536000, immutable" ->
  entry_optimized e = true.
Proof.
  intros Hlist He Hname Hcache.
  destruct (listed_entry _ _ _ _ Hlist He) as (f & _ & Hf & Heq).
  rewrite handler_cache_control in Hcache by (rewrite Hname; by eexists).
  rewrite Hname in Hcache.
  destruct (JS.includes (entry_name e) "-optimized") eqn:Hopt; [|done].
  pose proof (includes_toLowerCase _ "-optimized" Hopt) as Hlower.
  change (Str.toLowerCase "-optimized") with "-optimized" in Hlower.
  rewrite Heq. cbn. unfold isOptimized. rewrite Hlower. apply orb_true_r.
Qed.

(** X11.  The size the listing gives for a model is the size of what the
    route sends for its name when the request asks for no encoding and
    no range: status 200, that [Content-Length], that many bytes. *)
Theorem listed_size_is_served
    (files : list string) (fs : gmap string File) (entries : list ModelEntry)
    (e : ModelEntry) :
  listModels (Some files) fs = ApiJson entries ->
  In e entries ->
  let r := handler fs (mkRequest (entry_name e) None None) in
  statusCode r = 200
  /\ headers r !! "Content-Length" = Some (JS.Number_toString (entry_size e))
  /\ Z.of_nat (length (body r)) = entry_size e.
Proof.
  intros Hlist He r.
  destruct (listed_entry _ _ _ _ Hlist He) as (f & _ & Hf & Heq).
  destruct (identity_full_response fs (entry_name e) f Hf)
    as (Hstatus & Hlen & _ & Hbody).
  fold r in Hstatus, Hlen, Hbody.
  assert (entry_size e = Z.of_nat (length (content f))) as ->
    by (by rewrite Heq).
  by rewrite Hbody.
Qed.

(** *** From the listing to [GET /api/models/:id] and back *)

(** X12.  For a listed model whose name is [base.glb] with no further
    [.glb] in [base] the id is [base], and [GET /api/models/base] answers
    with the same name, path and size as the listing. *)
Theorem listed_id_leads_back
    (files : list string) (fs : gmap string File) (entries : list ModelEntry)
    (e : ModelEntry) (base : string) :
  listModels (Some files) fs = ApiJson entries ->
  In e entries ->
  entry_name e = base ++ ".glb" ->
  JS.includes base ".glb" = false ->
  entry_id e = base
  /\ exists modified,
       modelInfo fs (entry_id e)
       = ApiJson (mkInfo (entry_name e) (entry_path e) base (entry_size e)
                    modified).
Proof.
  intros Hlist He Hname Hbase.
  destruct (listed_entry _ _ _ _ Hlist He) as (f & _ & Hf & Heq).
  assert (entry_id e = base) as Hid.
  { transitivity (JS.replace ".glb" "" (entry_name e)); [by rewrite Heq|].
    rewrite Hname. by apply replace_glb_suffix. }
  split; [done|]. exists (mtimeMs f).
  unfold modelInfo, existsSync. rewrite Hid, <- Hname.
  unfold originalPath in Hf.
  rewrite Hf, bool_decide_eq_true_2 by eauto. cbn.
  assert (entry_size e = Z.of_nat (length (content f))) as ->
    by (by rewrite Heq).
  assert (entry_path e = "/models/" ++ entry_name e) as ->
    by (by rewrite Heq).
  done.
Qed.

(** X13.  The extension is taken off the id in lower case only: a listed
    model whose name has no [.glb] in lower case (the name ends in
    [.GLB], say) has its whole name as id, and unless a file of that name
    with [.glb] added exists, [GET /api/models/<id>] answers 404. *)
Theorem listed_id_keeps_upper_case_extension
    (files : list string) (fs : gmap string File) (entries : list ModelEntry)
    (e : ModelEntry) :
  listModels (Some files) fs = ApiJson entries ->
  In e entries ->
  JS.includes (entry_name e) ".glb" = false ->
  entry_id e = entry_name e
  /\ (fs !! path_join modelsDir (entry_name e ++ ".glb") = None ->
      modelInfo fs (entry_id e) = ApiError 404 "Model not found").
Proof.
  intros Hlist He Hname.
  destruct (listed_entry _ _ _ _ Hlist He) as (f & _ & Hf & Heq).
  assert (entry_id e = entry_name e) as Hid.
  { transitivity (JS.replace ".glb" "" (entry_name e)); [by rewrite Heq|].
    by apply replace_absent. }
  split; [done|]. intros Hnone.
  unfold modelInfo. rewrite Hid.
  by rewrite (proj2 (existsSync_false _ _) Hnone).
Qed.

(** X14.  [GET /api/models/:id] and the route agree on what exists: the
    first answers 404 for [id] exactly when the second answers 404 for
    the name [id.glb], whatever headers the request to the route has. *)
Theorem info_404_iff_route_404
    (fs : gmap string File) (id : string) (acceptEnc range : option string) :
  modelInfo fs id = ApiError 404 "Model not found"
  <-> statusCode (handler fs (mkRequest (id ++ ".glb") acceptEnc range)) = 404.
Proof.
  unfold modelInfo.
  destruct (fs !! path_join modelsDir (id ++ ".glb")) as [f|] eqn:Hf.
  - rewrite (proj2 (existsSync_true _ _)) by eauto. cbn [negb].
    split; [done|]. intros Hstatus.
    destruct (handler_status modelsDir path_join fs
                (mkRequest (id ++ ".glb") acceptEnc range)) as [H|[H|H]];
      [by eexists|..]; rewrite H in Hstatus; done.
  - rewrite (proj2 (existsSync_false _ _) Hf). cbn [negb]. split; [|done].
    intros _. unfold handler. cbn [params_file]. unfold originalPath.
    by rewrite (proj2 (existsSync_false _ _) Hf).
Qed.

(** X15.  When [GET /api/models/:id] answers with a model, the path it
    gives is the route for the name it gives, and the route sends, for a
    request without encoding and range, exactly the number of bytes it
    gives as size. *)
Theorem info_matches_route
    (fs : gmap string File) (id : string) (info : ModelInfo) :
  modelInfo fs id = ApiJson info ->
  let r := handler fs (mkRequest (info_name info) None None) in
  info_name info = id ++ ".glb"
  /\ info_path info = "/models/" ++ info_name info
  /\ statusCode r = 200
  /\ headers r !! "Content-Length" = Some (JS.Number_toString (info_size info))
  /\ Z.of_nat (length (body r)) = info_size info.
Proof.
  unfold modelInfo.
  destruct (negb _); [done|].
  destruct (fs !! path_join modelsDir (id ++ ".glb")) as [f|] eqn:Hf; [|done].
  intros [= <-]. cbn [info_name info_path info_size].
  destruct (identity_full_response fs (id ++ ".glb") f Hf)
    as (Hstatus & Hlen & _ & Hbody).
  repeat split; try done. by rewrite Hbody.
Qed.

End ListingFacts.

(** ** The WebSocket relay *)

Section RelayFacts.

Lemma lookup_onMessage ws message clients id :
  onMessage ws message clients !! id
  = (fun client => if bool_decide (id <> ws)
                      && bool_decide (readyState client = OPEN)
                   then clientSend message client else client)
    <$> clients !! id.
Proof. unfold onMessage. rewrite map_lookup_imap. by destruct (clients !! id). Qed.

(** A message is passed on to every other connection whose socket is
    open, and to no other. *)
Lemma onMessage_open_other ws id message clients client :
  clients !! id = Some client ->
  id <> ws ->
  readyState client = OPEN ->
  onMessage ws message clients !! id = Some (clientSend message client).
Proof.
  intros Hc Hne Hopen. rewrite lookup_onMessage, Hc. cbn.
  by rewrite !bool_decide_eq_true_2 by done.
Qed.

Lemma onMessage_skipped ws id message clients client :
  clients !! id = Some client ->
  id = ws \/ readyState client <> OPEN ->
  onMessage ws message clients !! id = Some client.
Proof.
  intros Hc Hskip. rewrite lookup_onMessage, Hc. cbn.
  destruct Hskip as [-> | Hclosed].
  - by rewrite bool_decide_eq_false_2 by auto.
  - rewrite (bool_decide_eq_false_2 (readyState client = OPEN)) by done.
    by rewrite andb_false_r.
Qed.

(** X16.  Over a run of messages nothing is sent to a connection whose
    socket is not open, and no connection appears or disappears. *)
Theorem relay_skips_closed
    (events : list (nat * string)) (clients : gmap nat Client) (id : nat) :
  (forall client,
     clients !! id = Some client ->
     readyState client <> OPEN ->
     relay events clients !! id = Some client)
  /\ (relay events clients !! id = None <-> clients !! id = None).
Proof.
  revert clients.
  induction events as [|[ws message] events IH]; intros clients; [done|].
  change (relay ((ws, message) :: events) clients)
    with (relay events (onMessage ws message clients)).
  destruct (IH (onMessage ws message clients)) as [IHclosed IHdom]. split.
  - intros client Hc Hclosed. apply IHclosed; [|done].
    apply onMessage_skipped; auto.
  - rewrite IHdom, lookup_onMessage. by destruct (clients !! id).
Qed.

(** X17.  Over a run of messages an open connection is sent exactly the
    messages of the other connections, in the order of their arrival. *)
Theorem relay_in_order
    (events : list (nat * string)) (clients : gmap nat Client)
    (id : nat) (client : Client) :
  clients !! id = Some client ->
  readyState client = OPEN ->
  relay events clients !! id
  = Some (mkClient OPEN
            (sent client
             ++ map snd (List.filter (fun event => negb (event.1 =? id)%nat)
                           events))).
Proof.
  revert clients client.
  induction events as [|[ws message] events IH]; intros clients client Hc Hopen.
  - cbn. rewrite app_nil_r, Hc. destruct client; cbn in *. by subst.
  - change (relay ((ws, message) :: events) clients)
      with (relay events (onMessage ws message clients)).
    cbn [List.filter fst]. destruct (Nat.eqb_spec ws id) as [-> | Hne]; cbn [negb].
    + apply IH; [|done]. rewrite lookup_onMessage, Hc. cbn.
      by rewrite bool_decide_eq_false_2 by auto.
    + erewrite (IH _ (clientSend message client)); [|..|done].
      * cbn. by rewrite <- app_assoc.
      * rewrite lookup_onMessage, Hc. cbn.
        by rewrite !bool_decide_eq_true_2 by done.
Qed.

End RelayFacts.

(** ** The precompress script and the route *)

Section PrecompressFacts.

Variable gzip brotli : list Byte.byte -> list Byte.byte.
Variable writtenAt : string -> Z.

Local Abbreviation precompressFile := (precompressFile gzip brotli writtenAt).

Lemma string_app_inv_head (s a b : string) : s ++ a = s ++ b -> a = b.
Proof.
  induction s as [|c s IH]; [done|].
  change (String c s ++ a) with (String c (s ++ a)).
  change (String c s ++ b) with (String c (s ++ b)).
  intros [= H]. by apply IH.
Qed.

Lemma gz_neq_br (src : string) : src ++ ".gz" <> src ++ ".br".
Proof. by intros H%string_app_inv_head. Qed.

(** What the script leaves at each path. *)
Lemma lookup_precompressFile fs src source fs' p :
  fs !! src = Some source ->
  precompressFile fs src = Some fs' ->
  fs' !! p
  = if decide (p = src ++ ".br") then
      if precompressNeeded fs src (src ++ ".br")
      then Some (mkFile (brotli (content source)) (writtenAt (src ++ ".br")))
      else fs !! p
    else if decide (p = src ++ ".gz") then
      if precompressNeeded fs src (src ++ ".gz")
      then Some (mkFile (gzip (content source)) (writtenAt (src ++ ".gz")))
      else fs !! p
    else fs !! p.
Proof.
  intros Hsrc. unfold precompressFile. rewrite Hsrc. intros [= <-].
  pose proof (gz_neq_br src).
  destruct (precompressNeeded fs src (src ++ ".br")),
    (precompressNeeded fs src (src ++ ".gz"));
    repeat case_decide; by simplify_map_eq.
Qed.

(** X18.  What the script leaves alone: the source, every path but the
    two siblings, and a sibling that is there and not older than the
    source, byte for byte and with its modification time. *)
Theorem precompress_leaves_alone
    (fs fs' : gmap string File) (src : string) :
  precompressFile fs src = Some fs' ->
  fs' !! src = fs !! src
  /\ (forall p, p <> src ++ ".gz" -> p <> src ++ ".br" -> fs' !! p = fs !! p)
  /\ (forall suffix sibling source,
        suffix = ".gz" \/ suffix = ".br" ->
        fs !! src = Some source ->
        fs !! (src ++ suffix) = Some sibling ->
        mtimeMs source <= mtimeMs sibling ->
        fs' !! (src ++ suffix) = Some sibling).
Proof.
  intros Hrun.
  destruct (fs !! src) as [source|] eqn:Hsrc;
    [|by unfold precompressFile in Hrun; rewrite Hsrc in Hrun].
  pose proof (fun p => lookup_precompressFile fs src source fs' p Hsrc Hrun)
    as Hlook.
  pose proof (gz_neq_br src) as Hne.
  repeat split.
  - rewrite Hlook, Hsrc. rewrite !decide_False; [done|..];
      intros Heq; symmetry in Heq; by apply string_app_neq in Heq.
  - intros p Hgz Hbr. rewrite Hlook. by rewrite !decide_False.
  - intros suffix sibling source' Hsuffix [= <-] Hsib Hfresh.
    assert (precompressNeeded fs src (src ++ suffix) = false) as Hno.
    { unfold precompressNeeded. rewrite Hsrc, Hsib.
      apply negb_false_iff, Z.leb_le. lia. }
    rewrite Hlook.
    destruct Hsuffix as [-> | ->].
    + rewrite decide_False by done. rewrite decide_True by done.
      by rewrite Hno.
    + rewrite decide_True by done. by rewrite Hno.
Qed.

(** X19.  What the script writes: a sibling that is missing or older
    than the source is replaced by the compressed bytes of the source as
    they were when the script looked. *)
Theorem precompress_writes_stale
    (fs fs' : gmap string File) (src : string) (source : File) :
  fs !! src = Some source ->
  precompressFile fs src = Some fs' ->
  (precompressNeeded fs src (src ++ ".gz") = true ->
   fs' !! (src ++ ".gz")
   = Some (mkFile (gzip (content source)) (writtenAt (src ++ ".gz"))))
  /\ (precompressNeeded fs src (src ++ ".br") = true ->
      fs' !! (src ++ ".br")
      = Some (mkFile (brotli (content source)) (writtenAt (src ++ ".br")))).
Proof.
  intros Hsrc Hrun.
  pose proof (fun p => lookup_precompressFile fs src source fs' p Hsrc Hrun)
    as Hlook.
  pose proof (gz_neq_br src) as Hne.
  split; intros Hneeded; rewrite Hlook.
  - rewrite decide_False by done. rewrite decide_True by done.
    by rewrite Hneeded.
  - rewrite decide_True by done. by rewrite Hneeded.
Qed.

(** After a run with a clock that is not behind the source neither
    sibling is needed again. *)
Lemma precompress_fresh fs fs' src source :
  fs !! src = Some source ->
  precompressFile fs src = Some fs' ->
  mtimeMs source <= writtenAt (src ++ ".gz") ->
  mtimeMs source <= writtenAt (src ++ ".br") ->
  fs' !! src = Some source
  /\ (exists gz, fs' !! (src ++ ".gz") = Some gz
                 /\ mtimeMs source <= mtimeMs gz)
  /\ (exists br, fs' !! (src ++ ".br") = Some br
                 /\ mtimeMs source <= mtimeMs br).
Proof.
  intros Hsrc Hrun Hgz Hbr.
  pose proof (fun p => lookup_precompressFile fs src source fs' p Hsrc Hrun)
    as Hlook.
  pose proof (gz_neq_br src) as Hne.
  repeat split.
  - rewrite Hlook, !decide_False; [done|..];
      intros Heq; symmetry in Heq; by apply string_app_neq in Heq.
  - rewrite Hlook, decide_False, decide_True by done.
    unfold precompressNeeded. rewrite Hsrc.
    destruct (fs !! (src ++ ".gz")) as [gz|]; [|eauto].
    destruct (Z.leb_spec (mtimeMs source) (mtimeMs gz)); cbn; eauto.
  - rewrite Hlook, decide_True by done.
    unfold precompressNeeded. rewrite Hsrc.
    destruct (fs !! (src ++ ".br")) as [br|]; [|eauto].
    destruct (Z.leb_spec (mtimeMs source) (mtimeMs br)); cbn; eauto.
Qed.

(** X20.  When the outputs are written no earlier than the source was
    modified, the script leaves both siblings in place and not older
    than the source, and a second run writes nothing. *)
Theorem precompress_settles
    (fs fs' : gmap string File) (src : string) (source : File) :
  fs !! src = Some source ->
  precompressFile fs src = Some fs' ->
  mtimeMs source <= writtenAt (src ++ ".gz") ->
  mtimeMs source <= writtenAt (src ++ ".br") ->
  precompressNeeded fs' src (src ++ ".gz") = false
  /\ precompressNeeded fs' src (src ++ ".br") = false
  /\ precompressFile fs' src = Some fs'.
Proof.
  intros Hsrc Hrun Hgz Hbr.
  destruct (precompress_fresh _ _ _ _ Hsrc Hrun Hgz Hbr)
    as (Hsrc' & (gz & Hgz' & Hgzt) & (br & Hbr' & Hbrt)).
  assert (precompressNeeded fs' src (src ++ ".gz") = false) as Hno1.
  { unfold precompressNeeded. rewrite Hsrc', Hgz'.
    apply negb_false_iff, Z.leb_le. lia. }
  assert (precompressNeeded fs' src (src ++ ".br") = false) as Hno2.
  { unfold precompressNeeded. rewrite Hsrc', Hbr'.
    apply negb_false_iff, Z.leb_le. lia. }
  repeat split; [done..|].
  unfold precompressFile. by rewrite Hsrc', Hno1, Hno2.
Qed.

Variable modelsDir : string.
Variable path_join : string -> string -> string.

(** X21.  On the directory the script leaves, with outputs written no
    earlier than the source was modified, the route answers a request
    that names [br] in [Accept-Encoding] with [Content-Encoding: br] from
    a sibling that is not older than the canonical file. *)
Theorem precompressed_brotli_is_fresh
    (fs fs' : gmap string File) (req : Request) (canonical : File)
    (acceptEnc : string) :
  let orig := originalPath modelsDir path_join (params_file req) in
  fs !! orig = Some canonical ->
  precompressFile fs orig = Some fs' ->
  mtimeMs canonical <= writtenAt (orig ++ ".gz") ->
  mtimeMs canonical <= writtenAt (orig ++ ".br") ->
  headers_accept_encoding req = Some acceptEnc ->
  JS.includes acceptEnc "br" = true ->
  headers (handler modelsDir path_join fs' req) !! "Content-Encoding" = Some "br"
  /\ selectedPath modelsDir path_join fs' req = orig ++ ".br"
  /\ exists sibling,
       fs' !! (orig ++ ".br") = Some sibling
       /\ fs' !! orig = Some canonical
       /\ mtimeMs canonical <= mtimeMs sibling.
Proof.
  intros orig Hsrc Hrun Hgz Hbr Hae Hinc.
  destruct (precompress_fresh _ _ _ _ Hsrc Hrun Hgz Hbr)
    as (Hsrc' & _ & (br & Hbr' & Hbrt)).
  assert (chooseVariant fs' acceptEnc orig = (orig ++ ".br", "br")) as Hchoice.
  { unfold chooseVariant. rewrite Hinc.
    by rewrite (proj2 (existsSync_true _ _)) by eauto. }
  assert (is_Some (fs' !! originalPath modelsDir path_join (params_file req)))
    as Horig by (fold orig; eauto).
  rewrite (handler_content_encoding modelsDir path_join fs' req Horig).
  unfold selectedPath, selectedEncoding. rewrite Hae. cbn [from_option id].
  fold orig. rewrite Hchoice. cbn.
  split; [done|]. split; [done|]. exists br. done.
Qed.

End PrecompressFacts.

(** ** The further theorems at concrete inputs *)

Lemma cors_listed_origin_extended_witness :
  corsOrigin (Some "http://localhost:3000/") = CorsError "Not allowed by CORS".
Proof.
  apply (cors_listed_origin_extended "http://localhost:3000" "/" "").
  - simpl. auto.
  - reflexivity.
  - reflexivity.
  - reflexivity.
Defined.

Lemma existing_asset_any_origin_witness :
  exists answer,
    modelsRoute exampleDir exampleJoin (Some "https://viewer-3000.devtunnels.ms")
      newResponse lampDir (mkRequest "lamp.glb" None None) = Some answer
    /\ headers answer !! "Access-Control-Allow-Origin" = Some "*".
Proof.
  destruct (existing_asset_any_origin exampleDir exampleJoin
              (Some "https://viewer-3000.devtunnels.ms") newResponse lampDir
              (mkRequest "lamp.glb" None None)) as (answer & Hroute & Hacao & _).
  - reflexivity.
  - by eexists.
  - exists answer. split; [exact Hroute|exact Hacao].
Defined.

Lemma missing_asset_echoes_origin_witness :
  exists answer,
    modelsRoute exampleDir exampleJoin (Some "https://viewer-3000.devtunnels.ms")
      newResponse orphanDir (mkRequest "lamp.glb" None None) = Some answer
    /\ statusCode answer = 404
    /\ headers answer !! "Access-Control-Allow-Origin"
       = Some "https://viewer-3000.devtunnels.ms".
Proof.
  apply (missing_asset_echoes_origin exampleDir exampleJoin
           (Some "https://viewer-3000.devtunnels.ms") newResponse orphanDir
           (mkRequest "lamp.glb" None None)).
  - reflexivity.
  - reflexivity.
Defined.

Lemma listing_optimized_first_witness :
  exists es,
    map entry_name es
    = [ "lamp.glb"; "chair-optimized.glb"; "Table.GLB";
        "desk-optimized-draco.glb" ]
    /\ shopEntries
       = (List.filter entry_optimized es
          ++ List.filter (fun e => negb (entry_optimized e)) es)%list.
Proof.
  apply (listing_optimized_first exampleDir exampleJoin shopFiles shopDir
           shopEntries).
  reflexivity.
Defined.

Lemma listing_entries_witness :
  In (mkEntry "Table.GLB" "/models/Table.GLB" "Table.GLB" 6 false) shopEntries.
Proof.
  apply (listing_entries exampleDir exampleJoin shopFiles shopDir shopEntries).
  - reflexivity.
  - exists "Table.GLB", (mkFile (bytesOf "table!") 200).
    repeat split; simpl; auto.
Defined.

Lemma immutable_cache_is_marked_optimized_witness :
  entry_optimized
    (mkEntry "chair-optimized.glb" "/models/chair-optimized.glb"
       "chair-optimized" 5 true) = true.
Proof.
  apply (immutable_cache_is_marked_optimized exampleDir exampleJoin
           shopFiles shopDir shopEntries _
           (mkRequest "chair-optimized.glb" None None)).
  - reflexivity.
  - vm_compute. auto.
  - reflexivity.
  - reflexivity.
Defined.

Lemma listed_size_is_served_witness :
  headers (exampleHandler shopDir (mkRequest "lamp.glb" None None))
    !! "Content-Length" = Some "10".
Proof.
  destruct (listed_size_is_served exampleDir exampleJoin shopFiles shopDir
              shopEntries (mkEntry "lamp.glb" "/models/lamp.glb" "lamp" 10 false))
    as (_ & Hlen & _).
  - reflexivity.
  - vm_compute. auto.
  - exact Hlen.
Defined.

Lemma listed_id_leads_back_witness :
  exists modified,
    modelInfo exampleDir exampleJoin shopDir "lamp"
    = ApiJson (mkInfo "lamp.glb" "/models/lamp.glb" "lamp" 10 modified).
Proof.
  destruct (listed_id_leads_back exampleDir exampleJoin shopFiles shopDir
              shopEntries (mkEntry "lamp.glb" "/models/lamp.glb" "lamp" 10 false)
              "lamp") as (_ & Hinfo).
  - reflexivity.
  - vm_compute. auto.
  - reflexivity.
  - reflexivity.
  - exact Hinfo.
Defined.

Lemma listed_id_keeps_upper_case_extension_witness :
  modelInfo exampleDir exampleJoin shopDir "Table.GLB"
  = ApiError 404 "Model not found".
Proof.
  destruct (listed_id_keeps_upper_case_extension exampleDir exampleJoin
              shopFiles shopDir shopEntries
              (mkEntry "Table.GLB" "/models/Table.GLB" "Table.GLB" 6 false))
    as (_ & Hinfo).
  - reflexivity.
  - vm_compute. auto.
  - reflexivity.
  - apply Hinfo. reflexivity.
Defined.

Lemma info_matches_route_witness :
  headers (exampleHandler shopDir (mkRequest "lamp.glb" None None))
    !! "Content-Length" = Some "10"
  /\ statusCode (exampleHandler shopDir (mkRequest "lamp.glb" None None)) = 200.
Proof.
  destruct (info_matches_route exampleDir exampleJoin shopDir "lamp"
              (mkInfo "lamp.glb" "/models/lamp.glb" "lamp" 10 200))
    as (_ & _ & Hstatus & Hlen & _).
  - reflexivity.
  - split; [exact Hlen|exact Hstatus].
Defined.

Lemma relay_in_order_witness :
  relay [(1%nat, "a"); (2%nat, "b"); (3%nat, "c"); (1%nat, "d")] roomClients
    !! 2%nat
  = Some (mkClient OPEN ["hello"; "a"; "c"; "d"]).
Proof.
  apply (relay_in_order [(1%nat, "a"); (2%nat, "b"); (3%nat, "c"); (1%nat, "d")]
           roomClients 2 (mkClient OPEN ["hello"])).
  - reflexivity.
  - reflexivity.
Defined.

Lemma precompress_leaves_alone_witness :
  lampDirCompressed !! "/srv/backend/models/lamp.glb"
  = Some (mkFile (bytesOf "0123456789") 200).
Proof.
  destruct (precompress_leaves_alone markGzip markBrotli at300 lampDir
              lampDirCompressed "/srv/backend/models/lamp.glb") as (Hsrc & _ & _).
  - reflexivity.
  - etransitivity; [exact Hsrc|reflexivity].
Defined.

Lemma precompress_writes_stale_witness :
  lampDirCompressed !! "/srv/backend/models/lamp.glb.br"
  = Some (mkFile (bytesOf "br:0123456789") 300).
Proof.
  destruct (precompress_writes_stale markGzip markBrotli at300 lampDir
              lampDirCompressed "/srv/backend/models/lamp.glb"
              (mkFile (bytesOf "0123456789") 200)) as (_ & Hbr).
  - reflexivity.
  - reflexivity.
  - apply Hbr. reflexivity.
Defined.

Lemma precompress_settles_witness :
  precompressFile markGzip markBrotli at300 lampDirCompressed
    "/srv/backend/models/lamp.glb" = Some lampDirCompressed.
Proof.
  destruct (precompress_settles markGzip markBrotli at300 lampDir
              lampDirCompressed "/srv/backend/models/lamp.glb"
              (mkFile (bytesOf "0123456789") 200)) as (_ & _ & Hagain).
  - reflexivity.
  - reflexivity.
  - unfold at300. simpl. lia.
  - unfold at300. simpl. lia.
  - exact Hagain.
Defined.

Lemma precompressed_brotli_is_fresh_witness :
  headers (exampleHandler lampDirCompressed
             (mkRequest "lamp.glb" (Some "gzip, deflate, br") None))
    !! "Content-Encoding" = Some "br".
Proof.
  destruct (precompressed_brotli_is_fresh markGzip markBrotli at300
              exampleDir exampleJoin lampDir lampDirCompressed
              (mkRequest "lamp.glb" (Some "gzip, deflate, br") None)
              (mkFile (bytesOf "0123456789") 200) "gzip, deflate, br")
    as (Henc & _).
  - reflexivity.
  - reflexivity.
  - unfold at300. simpl. lia.
  - unfold at300. simpl. lia.
  - reflexivity.
  - reflexivity.
  - exact Henc.
Defined.

(** ** Names and paths *)

Section PathFacts.

Local Abbreviation noSlash := (allChars (fun c => negb (Ascii.eqb c "/"))).

Lemma string_app_assoc (a b c : string) : (a ++ b) ++ c = a ++ b ++ c.
Proof.
  induction a as [|x a IH]; [done|].
  change ((String x a ++ b) ++ c) with (String x ((a ++ b) ++ c)).
  by rewrite IH.
Qed.

Lemma plainSegment_spec s :
  plainSegment s = true ->
  JS.truthy s = true /\ s <> "." /\ s <> ".." /\ noSlash s = true.
Proof.
  unfold plainSegment. rewrite !andb_true_iff, !negb_true_iff, !String.eqb_neq.
  tauto.
Qed.

Lemma joinWith_cons sep part next rest :
  Path.joinWith sep (part :: next :: rest)
  = part ++ sep ++ Path.joinWith sep (next :: rest).
Proof. done. Qed.

Lemma joinWith_snoc sep first others last :
  Path.joinWith sep ((first :: others) ++ [last])
  = Path.joinWith sep (first :: others) ++ sep ++ last.
Proof.
  revert first. induction others as [|next others IH]; intros first; [done|].
  change ((first :: next :: others) ++ [last])%list
    with (first :: ((next :: others) ++ [last]))%list.
  change ((next :: others) ++ [last])%list
    with (next :: (others ++ [last]))%list at 1.
  rewrite !joinWith_cons.
  change (next :: (others ++ [last]))%list with ((next :: others) ++ [last])%list.
  by rewrite IH, !string_app_assoc.
Qed.

(** Splitting at the slashes gives back segments that have none. *)
Lemma split_joinWith first others :
  Forall (fun s => noSlash s = true) (first :: others) ->
  JS.split "/" (Path.joinWith "/" (first :: others)) = first :: others.
Proof.
  revert first. induction others as [|next others IH]; intros first Hall.
  - apply split_no_sep. by inversion Hall.
  - rewrite joinWith_cons. inversion Hall as [|? ? Hfirst Hrest]; subst.
    change ("/" ++ Path.joinWith "/" (next :: others))
      with (String "/" (Path.joinWith "/" (next :: others))).
    rewrite (split_app_sep "/" first _ Hfirst). f_equal. by apply IH.
Qed.

(** Plain segments are kept as they are. *)
Lemma normalizeSegments_plain allowAboveRoot res segments :
  Forall (fun s => plainSegment s = true) segments ->
  Path.normalizeSegments allowAboveRoot res segments = (rev res ++ segments)%list.
Proof.
  intros Hall. revert res.
  induction Hall as [|segment rest Hplain _ IH]; intros res.
  - cbn. by rewrite app_nil_r.
  - apply plainSegment_spec in Hplain as (Htruthy & Hdot & Hdots & _).
    cbn [Path.normalizeSegments].
    assert (String.eqb segment "" = false) as ->
      by (apply String.eqb_neq; by destruct segment).
    rewrite (proj2 (String.eqb_neq _ _) Hdot).
    rewrite (proj2 (String.eqb_neq _ _) Hdots). cbn [orb].
    rewrite IH. cbn [rev]. by rewrite <- app_assoc.
Qed.

Lemma endsWithSlash_app pre s :
  JS.truthy s = true -> Path.endsWithSlash (pre ++ s) = Path.endsWithSlash s.
Proof.
  intros Hs. induction pre as [|c pre IH]; [done|].
  change (String c pre ++ s) with (String c (pre ++ s)).
  destruct (pre ++ s) as [|d t] eqn:Heq.
  - destruct pre; [|done]. change ("" ++ s) with s in Heq. by subst.
  - exact IH.
Qed.

Lemma endsWithSlash_noSlash s : noSlash s = true -> Path.endsWithSlash s = false.
Proof.
  induction s as [|c s IH]; [done|]. cbn [allChars Path.endsWithSlash].
  intros [Hc Hs]%andb_true_iff. destruct s; [|by apply IH].
  by apply negb_true_iff.
Qed.

Lemma endsWithSlash_joinWith first others :
  Forall (fun s => plainSegment s = true) (first :: others) ->
  Path.endsWithSlash (String "/" (Path.joinWith "/" (first :: others))) = false.
Proof.
  revert first. induction others as [|next others IH]; intros first Hall.
  - inversion Hall as [|? ? Hfirst _]; subst.
    apply plainSegment_spec in Hfirst as (Htruthy & _ & _ & Hno).
    change (String "/" (Path.joinWith "/" [first])) with ("/" ++ first).
    by rewrite (endsWithSlash_app "/" first Htruthy), endsWithSlash_noSlash.
  - inversion Hall as [|? ? _ Hrest]; subst.
    rewrite joinWith_cons.
    change (String "/" (first ++ "/" ++ Path.joinWith "/" (next :: others)))
      with (String "/" (first ++ String "/" (Path.joinWith "/" (next :: others)))).
    change (String "/" (first ++ String "/" (Path.joinWith "/" (next :: others))))
      with (String "/" first ++ String "/" (Path.joinWith "/" (next :: others))).
    rewrite endsWithSlash_app by done. by apply IH.
Qed.

Lemma joinWith_truthy first others :
  JS.truthy first = true ->
  JS.truthy (Path.joinWith "/" (first :: others)) = true.
Proof.
  intros Hfirst. destruct others as [|next others]; [done|].
  rewrite joinWith_cons. by destruct first.
Qed.

(** An absolute path of plain segments is normalized. *)
Lemma normalize_plain first others :
  Forall (fun s => plainSegment s = true) (first :: others) ->
  Path.normalize (String "/" (Path.joinWith "/" (first :: others)))
  = String "/" (Path.joinWith "/" (first :: others)).
Proof.
  intros Hall. unfold Path.normalize.
  rewrite (endsWithSlash_joinWith _ _ Hall).
  cbn [JS.truthy negb Path.isAbsolute].
  change (JS.split "/" (String "/" (Path.joinWith "/" (first :: others))))
    with ("" :: JS.split "/" (Path.joinWith "/" (first :: others))).
  rewrite split_joinWith.
  2:{ eapply Forall_impl; [exact Hall|]. intros s Hs.
      by apply plainSegment_spec in Hs as (_ & _ & _ & ?). }
  change (Path.normalizeSegments false [] ("" :: first :: others))
    with (Path.normalizeSegments false [] (first :: others)).
  rewrite (normalizeSegments_plain false [] _ Hall).
  change (rev [] ++ first :: others)%list with (first :: others).
  rewrite joinWith_truthy; [done|].
  inversion Hall as [|? ? Hfirst _]; subst.
  by apply plainSegment_spec in Hfirst as (? & _).
Qed.

(** Joining an absolute, normalized directory and a plain name puts a
    slash between the two and changes nothing else. *)
Lemma join_plain first others name :
  Forall (fun s => plainSegment s = true) (first :: others) ->
  plainSegment name = true ->
  let dir := "/" ++ Path.joinWith "/" (first :: others) in
  Path.join [dir; name] = dir ++ "/" ++ name.
Proof.
  intros Hdir Hname dir.
  pose proof (plainSegment_spec _ Hname) as (Htruthy & _).
  assert (Forall (fun s => plainSegment s = true) (first :: (others ++ [name])))
    as Hall by (apply (Forall_app _ (first :: others) [name]); auto).
  assert (dir ++ "/" ++ name
          = String "/" (Path.joinWith "/" (first :: (others ++ [name]))))
    as Hjoined.
  { change (first :: (others ++ [name]))%list
      with ((first :: others) ++ [name])%list.
    rewrite joinWith_snoc. reflexivity. }
  unfold Path.join. cbn [List.filter]. fold dir.
  assert (JS.truthy dir = true) as -> by done. rewrite Htruthy.
  change (Path.joinWith "/" [dir; name]) with (dir ++ "/" ++ name).
  rewrite Hjoined. cbn [JS.truthy negb].
  by apply normalize_plain.
Qed.

(** C6, as the code has it.  For a requested name that is a single path
    segment (not empty, not [.] or [..], without a slash) the answer is
    404 exactly when the models directory has no file of exactly that
    name; the body is then the text [Not found], and a file under any
    other name (a name that extends the requested one, the [.gz] and
    [.br] siblings among them, or differs from it in case) does not make
    the asset found. *)
Theorem missing_plain_name_404
    (first : string) (others : list string)
    (fs : gmap string File) (req : Request) :
  let modelsDir := "/" ++ Path.joinWith "/" (first :: others) in
  let file (name : string) := modelsDir ++ "/" ++ name in
  Forall (fun s => plainSegment s = true) (first :: others) ->
  plainSegment (params_file req) = true ->
  (statusCode (handler modelsDir nodeJoin fs req) = 404
   <-> fs !! file (params_file req) = None)
  /\ (fs !! file (params_file req) = None ->
      body (handler modelsDir nodeJoin fs req) = list_byte_of_string "Not found"
      /\ forall other f,
           other <> params_file req ->
           statusCode (handler modelsDir nodeJoin
                         (<[file other := f]> fs) req) = 404).
Proof.
  intros modelsDir file Hdir Hname.
  assert (originalPath modelsDir nodeJoin (params_file req)
          = file (params_file req)) as Hpath
    by (by apply join_plain).
  assert (forall fs', fs' !! file (params_file req) = None ->
                      statusCode (handler modelsDir nodeJoin fs' req) = 404
                      /\ body (handler modelsDir nodeJoin fs' req)
                         = list_byte_of_string "Not found") as Hmissing.
  { intros fs' Hnone. unfold handler. rewrite Hpath.
    by rewrite (proj2 (existsSync_false _ _) Hnone). }
  split; [split|].
  - intros Hstatus.
    destruct (fs !! file (params_file req)) as [v|] eqn:Hv; [|done].
    destruct (handler_status modelsDir nodeJoin fs req) as [H|[H|H]];
      [rewrite Hpath; eauto|..]; rewrite H in Hstatus; done.
  - intros Hnone. by apply Hmissing.
  - intros Hnone. split; [by apply Hmissing|].
    intros other f Hother. apply Hmissing.
    rewrite lookup_insert_ne; [done|].
    unfold file. intros Heq%string_app_inv_head. by injection Heq.
Qed.

End PathFacts.

(** C6 does not hold as stated: [lampDir] has no file named
    [sub/../lamp.glb], and the request for that name (sent as
    [/models/sub%2F..%2Flamp.glb]) is answered with status 200 and the
    bytes of [lamp.glb], because [path.join] resolves the name before
    the file is looked up. *)
Lemma name_is_resolved_before_lookup : ~ missingByName exampleDir exampleJoin.
Proof.
  intros Hclaim.
  specialize (Hclaim lampDir (mkRequest "sub/../lamp.glb" None None) eq_refl).
  vm_compute in Hclaim. discriminate.
Qed.

Example resolved_name_served :
  let r := exampleHandler lampDir (mkRequest "sub/../lamp.glb" None None) in
  statusCode r = 200 /\ body r = bytesOf "0123456789".
Proof. vm_compute. repeat split. Qed.

Lemma missing_plain_name_404_witness :
  let req := mkRequest "lamp.glb" (Some "gzip") None in
  statusCode (exampleHandler orphanDir req) = 404
  /\ body (exampleHandler orphanDir req) = bytesOf "Not found".
Proof.
  intros req.
  destruct (missing_plain_name_404 "srv" ["backend"; "models"] orphanDir req)
    as (Hiff & Hbody).
  - repeat constructor.
  - reflexivity.
  - split; [by apply Hiff|]. by apply Hbody.
Defined.

Lemma stale_sibling_served_like_fresh_witness :
  let req := mkRequest "lamp.glb" (Some "gzip, deflate, br") None in
  headers (exampleHandler lampDir req) !! "Content-Encoding" = Some "br"
  /\ body (exampleHandler lampDir req) = bytesOf "BROTLI".
Proof.
  intros req.
  destruct (stale_sibling_served_like_fresh exampleDir exampleJoin lampDir req
              (mkFile (bytesOf "0123456789") 200)) as (_ & Hbr & _).
  - reflexivity.
  - apply (Hbr (mkFile (bytesOf "BROTLI") 100)).
    + reflexivity.
    + simpl. lia.
    + reflexivity.
Defined.
